(** * Soccerbot: the frame reaction policy of the JetBot notebooks

    The repository holds Jupyter notebooks whose only decision logic is the
    per-frame callback [execute] together with its helpers
    [detection_center], [norm] and [closest_detection].  Two variants of the
    callback exist:

    - [Final]: the cell of final-soccerbot.ipynb (three collision classes,
      globals [detstatus] and [lookcount], target labels 37, 53 and 55);
    - [Seven]: the cell of the object-following notebook with the seven-class
      collision model (no policy globals, target label 37, base speed read
      from the speed slider).

    A third notebook, test_detection.ipynb, is a copy of the seven-class
    cell under work with another detector; of it only [postprocess], the
    parser of that detector's output array, is modelled.  The rectangles
    that [execute] draws on the image are modelled beside the callback
    ([drawn_rectangles]), and a session is a sequence of calls
    ([final_frames]).

    Numbers.  Python floats are modelled as exact rationals [Q]; rounding is
    not modelled.  [np.sqrt] has no rational counterpart, so [norm] is given
    its real value (in [R]) and the comparison of two norms made by
    [closest_detection] is computed on the radicands; [norm_lt_spec] shows
    that both comparisons agree.  Where rounding decides, the helpers are
    given a second time on binary64 floats ([F64]), operation by operation
    as Python evaluates them.

    Effects.  A call of [execute] is a computation in a small state and
    trace monad: the state holds the notebook's globals, the trace records,
    in program order, every call on the robot, on the camera subscription,
    on the detector, every [time.sleep] and every [print].  Widget updates
    are display glue and are left out. *)

From Stdlib Require Import String ZArith QArith Qround Qreals Reals Bool List Lia.
From Stdlib Require Lqa Lra.
From Corelib Require PrimFloat SpecFloat FloatOps FloatAxioms.
Import ListNotations.

Set Warnings "-inexact-float".

Open Scope Q_scope.

(** ** Comparisons on floats *)

(** Python's [x > y] and [x < y]. *)
Definition Qgtb (x y : Q) : bool := negb (Qle_bool x y).
Definition Qltb (x y : Q) : bool := negb (Qle_bool y x).

(** ** Data model *)

(** [det['bbox']] is a list of four normalised floats, read at the indices
    0 to 3 only. *)
Record BBox : Type := mkBBox { bx1 : Q; by1 : Q; bx2 : Q; by2 : Q }.

(** One entry of [detections[0]], a dict with the keys label, confidence
    and bbox. *)
Record Detection : Type := mkDetection
  { label : Z; confidence : Q; bbox : BBox }.

(** The calls on [robot]. *)
Inductive MotorCommand : Type :=
| Forward (speed : Q)
| Left (speed : Q)
| Stop
| SetMotors (left_speed right_speed : Q).

(** Everything a call of [execute] does to the outside, in program order. *)
Inductive Event : Type :=
| Motor (c : MotorCommand)          (* robot.forward/left/stop/set_motors *)
| Sleep (seconds : Q)               (* time.sleep *)
| UnobserveAll                      (* camera.unobserve_all() *)
| Observe                           (* camera.observe(execute, names='value') *)
| Detect                            (* model(image) *)
| Print (msg : string)              (* print of a literal *)
| PrintCenter (center : Q * Q).     (* print(center) *)

(** ** The monad of the callback *)

Section Monad.
Context {St : Type}.

Definition M (A : Type) : Type := St -> A * St * list Event.

Definition ret {A} (a : A) : M A := fun s => (a, s, []).

Definition bind {A B} (m : M A) (k : A -> M B) : M B :=
  fun s =>
    let '(a, s1, t1) := m s in
    let '(b, s2, t2) := k a s1 in
    (b, s2, t1 ++ t2).

Definition get : M St := fun s => (s, s, []).
Definition put (s : St) : M unit := fun _ => (tt, s, []).
Definition emit (e : Event) : M unit := fun s => (tt, s, [e]).

Definition final_state {A} (m : M A) (s : St) : St := snd (fst (m s)).
Definition trace {A} (m : M A) (s : St) : list Event := snd (m s).
End Monad.

Arguments M : clear implicits.

Notation "x <- m ;; k" := (bind m (fun x => k))
  (at level 61, m at next level, right associativity).
Notation "m ;; k" := (bind m (fun _ => k))
  (at level 61, right associativity).

(** The collaborators, as events. *)
Section Collaborators.
Context {St : Type}.
Definition robot_forward (speed : Q) : M St unit := emit (Motor (Forward speed)).
Definition robot_left (speed : Q) : M St unit := emit (Motor (Left speed)).
Definition robot_stop : M St unit := emit (Motor Stop).
Definition robot_set_motors (l r : Q) : M St unit := emit (Motor (SetMotors l r)).
Definition time_sleep (seconds : Q) : M St unit := emit (Sleep seconds).
Definition camera_unobserve_all : M St unit := emit UnobserveAll.
Definition camera_observe : M St unit := emit Observe.
Definition print (msg : string) : M St unit := emit (Print msg).
Definition print_center (c : Q * Q) : M St unit := emit (PrintCenter c).
(** [model(image)]: the detector's answer [detections[0]] is an input of
    the frame; the call is recorded. *)
Definition model (detections : list Detection) : M St (list Detection) :=
  emit Detect ;; ret detections.
End Collaborators.

(** The motor commands of a trace, in order. *)
Fixpoint motor_commands (t : list Event) : list MotorCommand :=
  match t with
  | [] => []
  | Motor c :: t' => c :: motor_commands t'
  | _ :: t' => motor_commands t'
  end.

(** ** Target selection *)

Section Selection.
(** The constant subtracted from the midpoint of the box: 0.5 in the
    notebooks' first cells and in [Seven], 0.1 in the cell of
    final-soccerbot.ipynb that defines [execute]. *)
Variable shift : Q.

Definition detection_center_by (detection : Detection) : Q * Q :=
  let b := bbox detection in
  let center_x := (bx1 b + bx2 b) / 2 - shift in
  let center_y := (by1 b + by2 b) / 2 - shift in
  (center_x, center_y).

(** The radicand of [norm]. *)
Definition norm_sq (vec : Q * Q) : Q := fst vec ^ 2 + snd vec ^ 2.

(** [np.sqrt(vec[0]**2 + vec[1]**2)] *)
Definition norm (vec : Q * Q) : R := sqrt (Q2R (norm_sq vec)).

(** [norm(a) < norm(b)], computed on the radicands. *)
Definition norm_lt (a b : Q * Q) : bool := Qltb (norm_sq a) (norm_sq b).

(** One turn of the loop of [closest_detection]. *)
Definition closest_step (closest : option Detection) (det : Detection)
  : option Detection :=
  match closest with
  | None => Some det
  | Some c =>
      if norm_lt (detection_center_by det) (detection_center_by c)
      then Some det else Some c
  end.

Definition closest_detection_by (detections : list Detection)
  : option Detection :=
  fold_left closest_step detections None.
End Selection.

(** ** final-soccerbot.ipynb *)

Module Final.

(** The globals of the cell, [detstatus = 0] and [lookcount = 0] at the
    start.  ([turn_left] is declared global but never read or written by
    [execute].) *)
Record PolicyState : Type := mkState { detstatus : Z; lookcount : Z }.

Definition initial_state : PolicyState := mkState 0 0.

(** The softmax output [y] of the three-class collision model, read at
    the indices 0, 1 and 2. *)
Record Probs : Type := mkProbs
  { prob_blocked : Q; prob_free : Q; prob_hit : Q }.

(** The cell that defines [execute] redefines [detection_center] with the
    constant 0.1; the notebook's earlier cell has 0.5. *)
Definition detection_center : Detection -> Q * Q := detection_center_by 0.1.
Definition detection_center_first_cell : Detection -> Q * Q :=
  detection_center_by 0.5.

Definition closest_detection : list Detection -> option Detection :=
  closest_detection_by 0.1.

(** [d['label'] == 37 or d['label'] == 53 or d['label'] == 55] *)
Definition matching (d : Detection) : bool :=
  ((label d =? 37) || (label d =? 53) || (label d =? 55))%Z.

Definition set_detstatus (v : Z) : M PolicyState unit :=
  st <- get ;; put (mkState v (lookcount st)).
Definition set_lookcount (v : Z) : M PolicyState unit :=
  st <- get ;; put (mkState (detstatus st) v).

(** The [prob_hit > 0.5] branch, up to its [return]. *)
Definition hit_maneuver : M PolicyState unit :=
  print "Entered into hit" ;;
  camera_unobserve_all ;;
  time_sleep 1.0 ;;
  robot_stop ;;
  time_sleep 0.5 ;;
  robot_forward 0.4 ;;
  time_sleep 0.5 ;;
  robot_stop ;;
  time_sleep 2 ;;
  camera_observe ;;
  print "Exiting hit".

(** The code after the [if]/[elif] chain: from [detections = model(image)]
    to the end of [execute]. *)
Definition detection_stage (detections : list Detection)
  : M PolicyState unit :=
  dets <- model detections ;;
  let matching_detections := filter matching dets in
  match closest_detection matching_detections with
  | None =>
      set_detstatus 0 ;;
      robot_forward 0.2
  | Some det =>
      print "Entering ball detect" ;;
      set_detstatus 1 ;;
      let center := detection_center det in
      print_center center ;;
      let turn_g := 0.2 in
      let speed_g := 0.5 in
      robot_set_motors (speed_g + turn_g * fst center)
                       (speed_g - turn_g * fst center) ;;
      time_sleep 1 ;;
      robot_stop ;;
      camera_unobserve_all ;;
      time_sleep 2 ;;
      camera_observe ;;
      print "Exiting ball detect"
  end.

(** The body of the first branch, [prob_free > 0.4 and detstatus == 0]; its
    [return] is commented out. *)
Definition scan_step : M PolicyState unit :=
  st <- get ;;
  if (lookcount st <? 10)%Z then
    robot_left 0.1 ;;
    set_lookcount (lookcount st + 1)
  else
    robot_forward 0.2 ;;
    set_lookcount 0.

(** [execute(change)]: [y] is the classifier's answer for the frame and
    [detections] the detector's, should it be asked. *)
Definition execute (y : Probs) (detections : list Detection)
  : M PolicyState unit :=
  st <- get ;;
  if Qgtb (prob_free y) 0.4 && (detstatus st =? 0)%Z then
    scan_step ;;
    detection_stage detections
  else if Qgtb (prob_free y) 0.4 && (detstatus st =? 1)%Z then
    robot_forward 0.2
  else if Qgtb (prob_blocked y) 0.5 then
    (* its return is commented out as well *)
    robot_left 0.2 ;;
    detection_stage detections
  else if Qgtb (prob_hit y) 0.5 then
    hit_maneuver
  else
    detection_stage detections.

End Final.

(** ** The seven-class notebook *)

Module Seven.

(** The softmax output of the seven-class collision model, in the order
    of its indices 0 to 6. *)
Record Probs : Type := mkProbs
  { prob_blocked : Q; prob_blue : Q; prob_free : Q; prob_green : Q;
    prob_hit : Q; prob_red : Q; prob_yellow : Q }.

Definition detection_center : Detection -> Q * Q := detection_center_by 0.5.

Definition closest_detection : list Detection -> option Detection :=
  closest_detection_by 0.5.

(** [d['label'] == 37] *)
Definition matching (d : Detection) : bool := (label d =? 37)%Z.

Definition hit_maneuver : M unit unit :=
  print "Entered into hit" ;;
  camera_unobserve_all ;;
  time_sleep 1.0 ;;
  robot_stop ;;
  time_sleep 0.5 ;;
  robot_forward 0.4 ;;
  time_sleep 0.5 ;;
  robot_stop ;;
  time_sleep 2 ;;
  camera_observe ;;
  print "Exiting hit".

(** [speed_value] is [speed_widget.value] at the time of the call. *)
Definition detection_stage (speed_value : Q) (detections : list Detection)
  : M unit unit :=
  dets <- model detections ;;
  let matching_detections := filter matching dets in
  match closest_detection matching_detections with
  | None =>
      robot_forward 0.2
  | Some det =>
      print "Entering ball detect" ;;
      camera_unobserve_all ;;
      time_sleep 0.5 ;;
      let center := detection_center det in
      print_center center ;;
      let turn_g := 0.30 in
      let speed_g := speed_value in
      robot_set_motors (speed_g + turn_g * fst center)
                       (speed_g - turn_g * fst center) ;;
      robot_stop ;;
      time_sleep 2 ;;
      camera_observe ;;
      print "Exiting ball detect"
  end.

Definition execute (y : Probs) (speed_value : Q)
           (detections : list Detection) : M unit unit :=
  if Qgtb (prob_free y) 0.4 then
    robot_forward 0.2 ;;
    detection_stage speed_value detections
  else if Qgtb (prob_red y) 0.5 || Qgtb (prob_yellow y) 0.5
          || Qgtb (prob_green y) 0.5 || Qgtb (prob_blue y) 0.5 then
    robot_left 0.1
  else if Qgtb (prob_blocked y) 0.6 then
    robot_left 0.2
  else if Qgtb (prob_hit y) 0.5 then
    hit_maneuver
  else
    detection_stage speed_value detections.

End Seven.

(** ** The frames of a session *)

(** What one delivered frame brings: the classifier's answer and the
    detector's. *)
Record FinalFrame : Type := mkFrame
  { frame_probs : Final.Probs; frame_detections : list Detection }.

(** [camera.observe(execute, names='value')]: the camera calls [execute]
    once for every frame it delivers, one call after the other. *)
Fixpoint final_frames (frames : list FinalFrame) : M Final.PolicyState unit :=
  match frames with
  | [] => ret tt
  | f :: rest =>
      Final.execute (frame_probs f) (frame_detections f) ;;
      final_frames rest
  end.

(** ** The rectangles drawn on the image *)

(** Python's [int] of a float: the integer part, rounding toward zero. *)
Definition py_int (x : Q) : Z := Z.quot (Qnum x) (Zpos (Qden x)).

(** [width = int(image_widget.width)] and [height] likewise, for the widget
    made with [width=300, height=300]. *)
Definition width : Z := 300.
Definition height : Z := 300.

(** The arguments of a [cv2.rectangle] call after the image: the two
    corners, the colour and the thickness. *)
Record Rectangle : Type := mkRectangle
  { pt1 : Z * Z; pt2 : Z * Z; color : Z * Z * Z; thickness : Z }.

(** [cv2.rectangle(image, (int(width * bbox[0]), int(height * bbox[1])),
    (int(width * bbox[2]), int(height * bbox[3])), color, thickness)] *)
Definition rectangle (b : BBox) (col : Z * Z * Z) (thick : Z) : Rectangle :=
  mkRectangle
    (py_int (inject_Z width * bx1 b), py_int (inject_Z height * by1 b))
    (py_int (inject_Z width * bx2 b), py_int (inject_Z height * by2 b))
    col thick.

(** The rectangles of the detection stage, in the order they are drawn: one
    for every detection, then one more for the target [det] if there is
    one. *)
Definition drawn_rectangles (dets : list Detection) (det : option Detection)
  : list Rectangle :=
  map (fun d => rectangle (bbox d) (255, 0, 0)%Z 2) dets ++
  match det with
  | Some d => [rectangle (bbox d) (0, 255, 0)%Z 5]
  | None => []
  end.

(** ** test_detection.ipynb: parsing the detector's output *)

Definition OUTPUT_LAYOUT : nat := 7.

(** [range(0, n, OUTPUT_LAYOUT)] *)
Definition layout_range (n : nat) : list nat :=
  map (fun k => (OUTPUT_LAYOUT * k)%nat)
      (seq 0 ((n + (OUTPUT_LAYOUT - 1)) / OUTPUT_LAYOUT)).

(** The three lists [boxes, confs, clss] that [postprocess] builds. *)
Definition Parsed : Type := (list (Z * Z * Z * Z) * list Q * list Z)%type.

(** One turn of the loop of [postprocess]; [None] is the [IndexError] of a
    read past the end of [output]. *)
Definition postprocess_step (img_h img_w : Z) (output : list Q) (conf_th : Q)
  (acc : option Parsed) (prefix : nat) : option Parsed :=
  match acc with
  | None => None
  | Some (boxes, confs, clss) =>
      match nth_error output (prefix + 2) with
      | None => None
      | Some conf =>
          if Qltb conf conf_th then Some (boxes, confs, clss)
          else
            match nth_error output (prefix + 3), nth_error output (prefix + 4),
                  nth_error output (prefix + 5), nth_error output (prefix + 6),
                  nth_error output (prefix + 1) with
            | Some o3, Some o4, Some o5, Some o6, Some o1 =>
                let x1 := py_int (o3 * inject_Z img_w) in
                let y1 := py_int (o4 * inject_Z img_h) in
                let x2 := py_int (o5 * inject_Z img_w) in
                let y2 := py_int (o6 * inject_Z img_h) in
                let cls := py_int o1 in
                Some (boxes ++ [(x1, y1, x2, y2)], confs ++ [conf],
                      clss ++ [cls])
            | _, _, _, _, _ => None
            end
      end
  end.

(** [postprocess(img, output, conf_th)], with [img_h, img_w] the first two
    components of [img.shape]. *)
Definition postprocess (img_h img_w : Z) (output : list Q) (conf_th : Q)
  : option Parsed :=
  fold_left (postprocess_step img_h img_w output conf_th)
            (layout_range (length output)) (Some ([], [], [])).

(** *** The same parser on floats that need not be finite

    [postprocess] above reads an array of finite numbers, where the only
    exception is the [IndexError] of a read past the end.  Here a float
    may also be an infinity or NaN, and the three exceptions of the loop
    body are told apart. *)

Inductive PyFloat : Type :=
| Finite (q : Q)
| PosInf
| NegInf
| NaN.

Inductive PyError : Type := IndexError | ValueError | OverflowError.

Inductive Outcome (A : Type) : Type :=
| Returned (a : A)
| Raised (e : PyError).

Arguments Returned {A} a.
Arguments Raised {A} e.

Definition outcome_bind {A B : Type} (m : Outcome A) (k : A -> Outcome B)
  : Outcome B :=
  match m with
  | Returned a => k a
  | Raised e => Raised e
  end.

(** [x < conf_th] for a finite threshold: false on NaN. *)
Definition pyfloat_ltb (x : PyFloat) (conf_th : Q) : bool :=
  match x with
  | Finite q => Qltb q conf_th
  | NegInf => true
  | PosInf | NaN => false
  end.

(** [x * n] for an int [n]. *)
Definition pyfloat_mul_int (x : PyFloat) (n : Z) : PyFloat :=
  match x with
  | Finite q => Finite (q * inject_Z n)
  | PosInf => if (0 <? n)%Z then PosInf else if (n <? 0)%Z then NegInf else NaN
  | NegInf => if (0 <? n)%Z then NegInf else if (n <? 0)%Z then PosInf else NaN
  | NaN => NaN
  end.

(** [int(x)]: [ValueError] on NaN, [OverflowError] on an infinity. *)
Definition pyfloat_int (x : PyFloat) : Outcome Z :=
  match x with
  | Finite q => Returned (py_int q)
  | PosInf | NegInf => Raised OverflowError
  | NaN => Raised ValueError
  end.

(** [output[i]] *)
Definition output_at (output : list PyFloat) (i : nat) : Outcome PyFloat :=
  match nth_error output i with
  | Some x => Returned x
  | None => Raised IndexError
  end.

Definition ParsedPy : Type :=
  (list (Z * Z * Z * Z) * list PyFloat * list Z)%type.

(** One turn of the loop, statement by statement. *)
Definition postprocess_py_step (img_h img_w : Z) (output : list PyFloat)
  (conf_th : Q) (acc : Outcome ParsedPy) (prefix : nat) : Outcome ParsedPy :=
  outcome_bind acc (fun '(boxes, confs, clss) =>
  outcome_bind (output_at output (prefix + 2)) (fun conf =>
  if pyfloat_ltb conf conf_th then Returned (boxes, confs, clss)
  else
    outcome_bind (output_at output (prefix + 3)) (fun o3 =>
    outcome_bind (pyfloat_int (pyfloat_mul_int o3 img_w)) (fun x1 =>
    outcome_bind (output_at output (prefix + 4)) (fun o4 =>
    outcome_bind (pyfloat_int (pyfloat_mul_int o4 img_h)) (fun y1 =>
    outcome_bind (output_at output (prefix + 5)) (fun o5 =>
    outcome_bind (pyfloat_int (pyfloat_mul_int o5 img_w)) (fun x2 =>
    outcome_bind (output_at output (prefix + 6)) (fun o6 =>
    outcome_bind (pyfloat_int (pyfloat_mul_int o6 img_h)) (fun y2 =>
    outcome_bind (output_at output (prefix + 1)) (fun o1 =>
    outcome_bind (pyfloat_int o1) (fun cls =>
    Returned (boxes ++ [(x1, y1, x2, y2)], confs ++ [conf], clss ++ [cls])
    )))))))))))).

Definition postprocess_py (img_h img_w : Z) (output : list PyFloat)
  (conf_th : Q) : Outcome ParsedPy :=
  fold_left (postprocess_py_step img_h img_w output conf_th)
            (layout_range (length output)) (Returned ([], [], [])).

(** ** The helpers in binary64

    The boxes of the detector are Python floats, and so is everything
    computed from them.  The same helpers once more, on the kernel's
    binary64 floats: every [+], [-], [*], [/], [sqrt] and [<] below is the
    IEEE operation that Python performs ([x ** 2] being the rounded
    square). *)

Module F64.
Import PrimFloat.
Local Open Scope float_scope.

Record FBox : Type := mkFBox { fx1 : float; fy1 : float; fx2 : float; fy2 : float }.

Record FDetection : Type := mkFDetection
  { flabel : Z; fconfidence : float; fbbox : FBox }.

Definition detection_center_by (shift : float) (detection : FDetection)
  : float * float :=
  let b := fbbox detection in
  let center_x := (fx1 b + fx2 b) / 2 - shift in
  let center_y := (fy1 b + fy2 b) / 2 - shift in
  (center_x, center_y).

Definition norm (vec : float * float) : float :=
  sqrt (fst vec * fst vec + snd vec * snd vec).

Definition closest_step (shift : float) (closest : option FDetection)
  (det : FDetection) : option FDetection :=
  match closest with
  | None => Some det
  | Some c =>
      if norm (detection_center_by shift det) <? norm (detection_center_by shift c)
      then Some det else Some c
  end.

Definition closest_detection_by (shift : float) (detections : list FDetection)
  : option FDetection :=
  fold_left (closest_step shift) detections None.

(** The seven-class notebook's [closest_detection]. *)
Definition closest_detection : list FDetection -> option FDetection :=
  closest_detection_by 0.5.

(** The two arguments of [robot.set_motors] in the steering branch. *)
Definition set_motors_arguments (speed_g turn_g : float)
  (center : float * float) : float * float :=
  (speed_g + turn_g * fst center, speed_g - turn_g * fst center).

(** The number a float stands for, when it is one. *)
Definition exact (x : float) : option Q :=
  match FloatOps.Prim2SF x with
  | SpecFloat.S754_zero _ => Some 0%Q
  | SpecFloat.S754_finite s m e =>
      Some ((if s then - inject_Z (Zpos m) else inject_Z (Zpos m)) * 2 ^ e)%Q
  | _ => None
  end.

End F64.

(** The detection of exact coordinates that a detection of floats stands
    for. *)
Definition exact_detection (d : F64.FDetection) : option Detection :=
  match F64.exact (F64.fconfidence d),
        F64.exact (F64.fx1 (F64.fbbox d)), F64.exact (F64.fy1 (F64.fbbox d)),
        F64.exact (F64.fx2 (F64.fbbox d)), F64.exact (F64.fy2 (F64.fbbox d)) with
  | Some c, Some a1, Some b1, Some a2, Some b2 =>
      Some (mkDetection (F64.flabel d) c (mkBBox a1 b1 a2 b2))
  | _, _, _, _, _ => None
  end.

(** * Vocabulary of the properties *)

(** [d], found at index [i] of [l], is the first element of [l] whose
    center has the least norm: no element is nearer, and every earlier
    element is strictly farther. *)
Definition first_closest (shift : Q) (l : list Detection) (i : nat)
  (d : Detection) : Prop :=
  nth_error l i = Some d /\
  (forall j d', nth_error l j = Some d' ->
     (norm (detection_center_by shift d) <= norm (detection_center_by shift d'))%R) /\
  (forall j d', (j < i)%nat -> nth_error l j = Some d' ->
     (norm (detection_center_by shift d) < norm (detection_center_by shift d'))%R).

(** Two centers are the same point. *)
Definition same_point (a b : Q * Q) : Prop :=
  fst a == fst b /\ snd a == snd b.

(** The center offset in the words of the specification: the midpoint of
    the box minus 0.5 on both axes. *)
Definition spec_center_offset (d : Detection) : Q * Q :=
  let b := bbox d in
  ((bx1 b + bx2 b) / 2 - 0.5, (by1 b + by2 b) / 2 - 0.5).

(** What the escape manoeuvre records. *)
Definition hit_trace : list Event :=
  [Print "Entered into hit"; UnobserveAll; Sleep 1.0; Motor Stop; Sleep 0.5;
   Motor (Forward 0.4); Sleep 0.5; Motor Stop; Sleep 2; Observe;
   Print "Exiting hit"].

(** What the steering branch records for a target whose center is
    [center]: the notebooks differ in the base speed, in the gain and in
    where they detach and pause. *)
Definition final_steer_trace (center : Q * Q) : list Event :=
  [Print "Entering ball detect"; PrintCenter center;
   Motor (SetMotors (0.5 + 0.2 * fst center) (0.5 - 0.2 * fst center));
   Sleep 1; Motor Stop; UnobserveAll; Sleep 2; Observe;
   Print "Exiting ball detect"].

Definition seven_steer_trace (speed_g : Q) (center : Q * Q) : list Event :=
  [Print "Entering ball detect"; UnobserveAll; Sleep 0.5; PrintCenter center;
   Motor (SetMotors (speed_g + 0.30 * fst center) (speed_g - 0.30 * fst center));
   Motor Stop; Sleep 2; Observe; Print "Exiting ball detect"].

(** The target of a frame in each notebook: the closest of the detections
    with a target label. *)
Definition final_target (dets : list Detection) : option Detection :=
  Final.closest_detection (filter Final.matching dets).

Definition seven_target (dets : list Detection) : option Detection :=
  Seven.closest_detection (filter Seven.matching dets).

(** What the detection stage records, and the tracking flag it leaves. *)
Definition final_detection_trace (dets : list Detection) : list Event :=
  Detect ::
  match final_target dets with
  | None => [Motor (Forward 0.2)]
  | Some det => final_steer_trace (Final.detection_center det)
  end.

Definition final_detection_status (dets : list Detection) : Z :=
  match final_target dets with None => 0 | Some _ => 1 end.

Definition seven_detection_trace (speed_g : Q) (dets : list Detection)
  : list Event :=
  Detect ::
  match seven_target dets with
  | None => [Motor (Forward 0.2)]
  | Some det => seven_steer_trace speed_g (Seven.detection_center det)
  end.

(** The tracking flag only ever holds 0 or 1. *)
Definition tracking_flag_ok (st : Final.PolicyState) : Prop :=
  Final.detstatus st = 0%Z \/ Final.detstatus st = 1%Z.

(** ** The priority list of the specification (4.1: first match wins) *)

Section FirstMatch.
Context {Obs Act : Type}.

(** The action of the first rule whose guard holds of the observation, the
    default when there is none. *)
Fixpoint first_match (rules : list ((Obs -> bool) * Act)) (default : Act)
  (o : Obs) : Act :=
  match rules with
  | [] => default
  | (guard, act) :: rest =>
      if guard o then act else first_match rest default o
  end.
End FirstMatch.

(** The branches of final-soccerbot.ipynb, in the order of the
    specification: search, approach, avoid, escape, default. *)
Inductive FinalBranch : Type := FScan | FTracked | FBlocked | FHit | FDefault.

Definition final_priority_list
  : list ((Final.PolicyState * Final.Probs -> bool) * FinalBranch) :=
  [ (fun o => Qgtb (Final.prob_free (snd o)) 0.4
              && (Final.detstatus (fst o) =? 0)%Z, FScan);
    (fun o => Qgtb (Final.prob_free (snd o)) 0.4
              && (Final.detstatus (fst o) =? 1)%Z, FTracked);
    (fun o => Qgtb (Final.prob_blocked (snd o)) 0.5, FBlocked);
    (fun o => Qgtb (Final.prob_hit (snd o)) 0.5, FHit) ].

Definition final_run_branch (b : FinalBranch) (dets : list Detection)
  : M Final.PolicyState unit :=
  match b with
  | FScan => Final.scan_step ;; Final.detection_stage dets
  | FTracked => robot_forward 0.2
  | FBlocked => robot_left 0.2 ;; Final.detection_stage dets
  | FHit => Final.hit_maneuver
  | FDefault => Final.detection_stage dets
  end.

(** The branches of the seven-class notebook. *)
Inductive SevenBranch : Type := SFree | SColor | SBlocked | SHit | SDefault.

Definition seven_priority_list : list ((Seven.Probs -> bool) * SevenBranch) :=
  [ (fun y => Qgtb (Seven.prob_free y) 0.4, SFree);
    (fun y => Qgtb (Seven.prob_red y) 0.5 || Qgtb (Seven.prob_yellow y) 0.5
              || Qgtb (Seven.prob_green y) 0.5 || Qgtb (Seven.prob_blue y) 0.5,
     SColor);
    (fun y => Qgtb (Seven.prob_blocked y) 0.6, SBlocked);
    (fun y => Qgtb (Seven.prob_hit y) 0.5, SHit) ].

Definition seven_run_branch (b : SevenBranch) (speed_value : Q)
  (dets : list Detection) : M unit unit :=
  match b with
  | SFree => robot_forward 0.2 ;; Seven.detection_stage speed_value dets
  | SColor => robot_left 0.1
  | SBlocked => robot_left 0.2
  | SHit => Seven.hit_maneuver
  | SDefault => Seven.detection_stage speed_value dets
  end.

(** ** The claims as the specification words them *)

(** "At most one Control Decision is produced per frame." *)
Definition at_most_one_command (t : list Event) : Prop :=
  (length (motor_commands t) <= 1)%nat.

(** The search branch as one decision per frame: below the limit the
    frame's command is the left turn and the counter goes up by one; at
    the limit the frame's command is a single forward nudge and the counter
    is reset. *)
Definition scan_decides_alone (st : Final.PolicyState) (y : Final.Probs)
  (dets : list Detection) : Prop :=
  let cmds := motor_commands (trace (Final.execute y dets) st) in
  let st' := final_state (Final.execute y dets) st in
  ((Final.lookcount st < 10)%Z ->
     cmds = [Left 0.1] /\ Final.lookcount st' = (Final.lookcount st + 1)%Z) /\
  ((10 <= Final.lookcount st)%Z ->
     cmds = [Forward 0.2] /\ Final.lookcount st' = 0%Z).

(** ** The camera subscription along a trace *)

(** Whether [execute] is attached to the camera after an event, given
    whether it was before. *)
Definition subscribed_after (attached : bool) (e : Event) : bool :=
  match e with
  | UnobserveAll => false
  | Observe => true
  | _ => attached
  end.

Definition subscribed_at_end (attached : bool) (t : list Event) : bool :=
  fold_left subscribed_after t attached.

(** Every motor command and every pause of the trace happens while
    [execute] is detached, so that no frame can be delivered to it
    meanwhile. *)
Fixpoint acts_while_detached (attached : bool) (t : list Event) : bool :=
  match t with
  | [] => true
  | e :: t' =>
      match e with
      | Motor _ | Sleep _ => negb attached
      | _ => true
      end && acts_while_detached (subscribed_after attached e) t'
  end.

(** The escape manoeuvre, guarded: detach, the manoeuvre in the order stop,
    pause, forward, pause, stop, pause, then attach again. *)
Definition guarded_escape (t : list Event) : Prop :=
  motor_commands t = [Stop; Forward 0.4; Stop] /\
  acts_while_detached true t = true /\
  subscribed_at_end true t = true /\
  exists before, t = before ++ [UnobserveAll; Sleep 1.0; Motor Stop; Sleep 0.5;
                                Motor (Forward 0.4); Sleep 0.5; Motor Stop;
                                Sleep 2; Observe; Print "Exiting hit"]
                 /\ motor_commands before = [].

(** ** Steering *)

(** [steers base gain det cx l r]: some call of [execute], in a notebook
    whose base speed is [base] and whose turn gain is [gain], has the target
    [det] with horizontal center [cx] and passes [l] and [r] to
    [robot.set_motors]. *)
Inductive steers : Q -> Q -> Detection -> Q -> Q -> Q -> Prop :=
| steers_final (st : Final.PolicyState) (y : Final.Probs)
    (dets : list Detection) (det : Detection) (l r : Q) :
    final_target dets = Some det ->
    In (Motor (SetMotors l r)) (trace (Final.execute y dets) st) ->
    steers 0.5 0.2 det (fst (Final.detection_center det)) l r
| steers_seven (y : Seven.Probs) (speed_value : Q)
    (dets : list Detection) (det : Detection) (l r : Q) :
    seven_target dets = Some det ->
    In (Motor (SetMotors l r)) (trace (Seven.execute y speed_value dets) tt) ->
    steers speed_value 0.30 det (fst (Seven.detection_center det)) l r.

(** The four coordinates of a box lie in [0, 1]. *)
Definition bbox_in_unit (b : BBox) : Prop :=
  (0 <= bx1 b <= 1) /\ (0 <= by1 b <= 1) /\
  (0 <= bx2 b <= 1) /\ (0 <= by2 b <= 1).

(** The range the motor interface accepts. *)
Definition in_motor_range (v : Q) : Prop := -1 <= v <= 1.

(** The scan counter stays between 0 and the limit. *)
Definition scan_counter_ok (st : Final.PolicyState) : Prop :=
  (0 <= Final.lookcount st <= 10)%Z.

(** A frame on which the search branch runs and finds nothing: free space
    and no detection with a target label. *)
Definition empty_free_frame (f : FinalFrame) : Prop :=
  0.4 < Final.prob_free (frame_probs f) /\
  final_target (frame_detections f) = None.

(** How often a trace asks the detector. *)
Fixpoint detector_calls (t : list Event) : nat :=
  match t with
  | [] => 0
  | Detect :: t' => S (detector_calls t')
  | _ :: t' => detector_calls t'
  end.

(** The classifier's contract on its answer: no negative component, and
    the components sum to 1 at most. *)
Definition final_probabilities (y : Final.Probs) : Prop :=
  0 <= Final.prob_blocked y /\ 0 <= Final.prob_free y /\
  0 <= Final.prob_hit y /\
  Final.prob_blocked y + Final.prob_free y + Final.prob_hit y <= 1.

Definition seven_probabilities (y : Seven.Probs) : Prop :=
  0 <= Seven.prob_blocked y /\ 0 <= Seven.prob_blue y /\
  0 <= Seven.prob_free y /\ 0 <= Seven.prob_green y /\
  0 <= Seven.prob_hit y /\ 0 <= Seven.prob_red y /\
  0 <= Seven.prob_yellow y /\
  Seven.prob_blocked y + Seven.prob_blue y + Seven.prob_free y
  + Seven.prob_green y + Seven.prob_hit y + Seven.prob_red y
  + Seven.prob_yellow y <= 1.

(** The horizontal midpoint of a box. *)
Definition midpoint_x (b : BBox) : Q := (bx1 b + bx2 b) / 2.

(** [d'] is [d] mirrored about the vertical axis through the middle of the
    image. *)
Definition mirrored (d d' : Detection) : Prop :=
  bx1 (bbox d') == 1 - bx2 (bbox d) /\ bx2 (bbox d') == 1 - bx1 (bbox d) /\
  by1 (bbox d') == by1 (bbox d) /\ by2 (bbox d') == by2 (bbox d).

(** A corner lies on the image or on its border. *)
Definition on_image (pt : Z * Z) : Prop :=
  (0 <= fst pt <= width)%Z /\ (0 <= snd pt <= height)%Z.

(** ** The detector's output as entries *)

(** One entry of the flat output array: the seven floats of a candidate
    detection, in the order of the array. *)
Record SsdEntry : Type := mkEntry
  { e_index : Q; e_cls : Q; e_conf : Q;
    e_x1 : Q; e_y1 : Q; e_x2 : Q; e_y2 : Q }.

Definition entry_floats (e : SsdEntry) : list Q :=
  [e_index e; e_cls e; e_conf e; e_x1 e; e_y1 e; e_x2 e; e_y2 e].

(** The array that holds the entries one after the other. *)
Definition flat_output (es : list SsdEntry) : list Q :=
  flat_map entry_floats es.

(** The entries that pass the confidence threshold. *)
Definition confident (conf_th : Q) (es : list SsdEntry) : list SsdEntry :=
  filter (fun e => negb (Qltb (e_conf e) conf_th)) es.

(** The pixel box and the class of an entry. *)
Definition entry_box (img_h img_w : Z) (e : SsdEntry) : Z * Z * Z * Z :=
  (py_int (e_x1 e * inject_Z img_w), py_int (e_y1 e * inject_Z img_h),
   py_int (e_x2 e * inject_Z img_w), py_int (e_y2 e * inject_Z img_h)).

Definition entry_class (e : SsdEntry) : Z := py_int (e_cls e).

(** The three parallel lists for the entries that pass the threshold. *)
Definition parsed_entries (img_h img_w : Z) (conf_th : Q)
  (es : list SsdEntry) : Parsed :=
  (map (entry_box img_h img_w) (confident conf_th es),
   map e_conf (confident conf_th es),
   map entry_class (confident conf_th es)).

(** The coordinates of an entry are normalised. *)
Definition entry_in_unit (e : SsdEntry) : Prop :=
  (0 <= e_x1 e <= 1) /\ (0 <= e_y1 e <= 1) /\
  (0 <= e_x2 e <= 1) /\ (0 <= e_y2 e <= 1).

(** A pixel box lies on an image of the given height and width. *)
Definition box_on_image (img_h img_w : Z) (box : Z * Z * Z * Z) : Prop :=
  let '(x1, y1, x2, y2) := box in
  (0 <= x1 <= img_w)%Z /\ (0 <= y1 <= img_h)%Z /\
  (0 <= x2 <= img_w)%Z /\ (0 <= y2 <= img_h)%Z.

(** The seconds a trace spends in [time.sleep]. *)
Fixpoint total_sleep (t : list Event) : Q :=
  match t with
  | [] => 0
  | Sleep seconds :: t' => seconds + total_sleep t'
  | _ :: t' => total_sleep t'
  end.

(** Every pause of the trace happens while [execute] is detached. *)
Fixpoint sleeps_while_detached (attached : bool) (t : list Event) : bool :=
  match t with
  | [] => true
  | e :: t' =>
      match e with
      | Sleep _ => negb attached
      | _ => true
      end && sleeps_while_detached (subscribed_after attached e) t'
  end.

(** A parsed result of finite confidences, as one of Python floats. *)
Definition parsed_py (p : Parsed) : ParsedPy :=
  let '(boxes, confs, clss) := p in (boxes, map Finite confs, clss).

Definition is_finite (x : PyFloat) : Prop :=
  match x with Finite _ => True | _ => False end.

(** ** Nearest to the center, in the words of the specification *)

(** The Euclidean norm of a vector. *)
Definition euclidean_norm (v : Q * Q) : R :=
  sqrt (Q2R (fst v) * Q2R (fst v) + Q2R (snd v) * Q2R (snd v)).

(** [d], at index [i] of [l], is the first element of [l] whose center
    offset has the least Euclidean norm. *)
Definition first_nearest_center (l : list Detection) (i : nat)
  (d : Detection) : Prop :=
  nth_error l i = Some d /\
  (forall j d', nth_error l j = Some d' ->
     (euclidean_norm (spec_center_offset d)
      <= euclidean_norm (spec_center_offset d'))%R) /\
  (forall j d', (j < i)%nat -> nth_error l j = Some d' ->
     (euclidean_norm (spec_center_offset d)
      < euclidean_norm (spec_center_offset d'))%R).

Module F64Words.
Import PrimFloat.
Local Open Scope float_scope.

(** The norm of the center offset as binary64 computes it: midpoint minus
    0.5 on both axes, the square root of the sum of the squares. *)
Definition computed_offset_norm (d : F64.FDetection) : float :=
  let b := F64.fbbox d in
  let cx := (F64.fx1 b + F64.fx2 b) / 2 - 0.5 in
  let cy := (F64.fy1 b + F64.fy2 b) / 2 - 0.5 in
  sqrt (cx * cx + cy * cy).

(** Two boxes on the right border of the image: the first reaches from
    just below the top to the bottom, the second is the point in the
    middle of the border.  Their coordinates are float32 values. *)
Definition tall_box : F64.FDetection :=
  F64.mkFDetection 37 0.5 (F64.mkFBox 1 0x1p-26 1 1).
Definition point_box : F64.FDetection :=
  F64.mkFDetection 37 0.5 (F64.mkFBox 1 0.5 1 0.5).

(** Two boxes that reach the right border, the second starting a little
    further right than the first, and the default of the speed slider. *)
Definition left_box : F64.FDetection :=
  F64.mkFDetection 37 0.5 (F64.mkFBox 0x1p-53 0 0x1.fffffep-1 1).
Definition right_box : F64.FDetection :=
  F64.mkFDetection 37 0.5 (F64.mkFBox 0x1p-52 0 0x1.fffffep-1 1).
Definition slider_default : float := 0.4.
Definition slider_high : float := 0.8.

(** A box whose midpoint lies 2^-53 right of the middle of the image. *)
Definition just_right_box : F64.FDetection :=
  F64.mkFDetection 37 0.5 (F64.mkFBox 0x1p-52 0 1 1).
Definition zero : float := 0.
Definition seven_gain : float := 0.30.
Definition half : float := 0.5.

End F64Words.

Section FirstLeast.
Context {A T : Type}.
Variable score : A -> T.
Variable lt : T -> T -> bool.

(** [d], at index [i] of [l], is the first element of [l] of least score:
    no element scores below it and every earlier element scores above
    it. *)
Definition first_least (l : list A) (i : nat) (d : A) : Prop :=
  nth_error l i = Some d /\
  (forall j d', nth_error l j = Some d' -> lt (score d') (score d) = false) /\
  (forall j d', (j < i)%nat -> nth_error l j = Some d' ->
     lt (score d) (score d') = true).
End FirstLeast.

(** The position of a float that is not NaN in the order of the floats,
    read off its sign, exponent and mantissa. *)
Definition sf_key (f : SpecFloat.spec_float) : Z * Z * Z :=
  match f with
  | SpecFloat.S754_infinity true => (-2, 0, 0)
  | SpecFloat.S754_finite true m e => (-1, - e, - Zpos m)
  | SpecFloat.S754_zero _ => (0, 0, 0)
  | SpecFloat.S754_nan => (0, 0, 0)
  | SpecFloat.S754_finite false m e => (1, e, Zpos m)
  | SpecFloat.S754_infinity false => (2, 0, 0)
  end%Z.

Definition lex_lt (a b : Z * Z * Z) : Prop :=
  let '(a1, a2, a3) := a in
  let '(b1, b2, b3) := b in
  (a1 < b1 \/ (a1 = b1 /\ (a2 < b2 \/ (a2 = b2 /\ a3 < b3))))%Z.

(** * Properties *)

(** ** Comparisons *)

Lemma Qgtb_true_iff (x y : Q) : Qgtb x y = true <-> y < x.
Proof.
  unfold Qgtb. rewrite negb_true_iff, <- not_true_iff_false, Qle_bool_iff.
  split; [apply Qnot_le_lt | apply Qlt_not_le].
Qed.

Lemma Qgtb_false_iff (x y : Q) : Qgtb x y = false <-> x <= y.
Proof.
  unfold Qgtb. rewrite negb_false_iff. apply Qle_bool_iff.
Qed.

Lemma Qltb_true_iff (x y : Q) : Qltb x y = true <-> x < y.
Proof. apply (Qgtb_true_iff y x). Qed.

Lemma Qltb_false_iff (x y : Q) : Qltb x y = false <-> y <= x.
Proof. apply (Qgtb_false_iff y x). Qed.

(** ** The norm and its radicand *)

Lemma norm_sq_mult (vec : Q * Q) :
  norm_sq vec == fst vec * fst vec + snd vec * snd vec.
Proof. unfold norm_sq. simpl. reflexivity. Qed.

Lemma norm_sq_nonneg (vec : Q * Q) : 0 <= norm_sq vec.
Proof. rewrite norm_sq_mult. Lqa.nra. Qed.

Lemma Q2R_norm_sq_nonneg (vec : Q * Q) : (0 <= Q2R (norm_sq vec))%R.
Proof.
  replace 0%R with (Q2R 0) by (unfold Q2R; simpl; Lra.lra).
  apply Qle_Rle, norm_sq_nonneg.
Qed.

(** The test made on the radicands is the test on the norms. *)
Lemma norm_lt_spec (a b : Q * Q) :
  norm_lt a b = true <-> (norm a < norm b)%R.
Proof.
  unfold norm_lt, norm. rewrite Qltb_true_iff. split; intros H.
  - apply sqrt_lt_1_alt. split; [apply Q2R_norm_sq_nonneg | now apply Qlt_Rlt].
  - apply Rlt_Qlt. now apply sqrt_lt_0_alt.
Qed.

Lemma norm_le_spec (a b : Q * Q) :
  norm_sq a <= norm_sq b <-> (norm a <= norm b)%R.
Proof.
  unfold norm. split; intros H.
  - apply sqrt_le_1_alt. now apply Qle_Rle.
  - apply Rle_Qle. apply sqrt_le_0; auto using Q2R_norm_sq_nonneg.
Qed.

Lemma norm_lt_false (a b : Q * Q) :
  norm_lt a b = false <-> (norm b <= norm a)%R.
Proof.
  unfold norm_lt. rewrite Qltb_false_iff. apply norm_le_spec.
Qed.

(** ** closest_detection *)

Section ClosestDetection.
Variable shift : Q.

Lemma closest_detection_by_snoc (l : list Detection) (x : Detection) :
  closest_detection_by shift (l ++ [x])
  = closest_step shift (closest_detection_by shift l) x.
Proof.
  unfold closest_detection_by. now rewrite fold_left_app.
Qed.

(** The loop keeps [None] only as long as it has seen nothing. *)
Lemma closest_detection_by_none (l : list Detection) :
  closest_detection_by shift l = None -> l = [].
Proof.
  induction l as [|x l _] using rev_ind; [reflexivity|].
  rewrite closest_detection_by_snoc. unfold closest_step.
  destruct (closest_detection_by shift l); [|discriminate].
  destruct (norm_lt _ _); discriminate.
Qed.

Lemma first_closest_singleton (x : Detection) : first_closest shift [x] 0 x.
Proof.
  repeat split.
  - intros [|[|j]] d' Hj; simpl in Hj; try discriminate.
    injection Hj as <-. apply Rle_refl.
  - intros j d' Hj. lia.
Qed.

(** A new element that is strictly nearer takes over, at the last index. *)
Lemma first_closest_take (l : list Detection) (i : nat) (d x : Detection) :
  first_closest shift l i d ->
  norm_lt (detection_center_by shift x) (detection_center_by shift d) = true ->
  first_closest shift (l ++ [x]) (length l) x.
Proof.
  intros (Hi & Hmin & _) Hlt. apply norm_lt_spec in Hlt.
  assert (Hall : forall j d', (j < length l)%nat ->
            nth_error (l ++ [x]) j = Some d' ->
            (norm (detection_center_by shift x)
             < norm (detection_center_by shift d'))%R).
  { intros j d' Hj Hn. rewrite nth_error_app1 in Hn by assumption.
    eapply Rlt_le_trans; [exact Hlt | eapply Hmin; exact Hn]. }
  repeat split.
  - rewrite nth_error_app2, Nat.sub_diag by lia. reflexivity.
  - intros j d' Hn. destruct (Nat.lt_ge_cases j (length l)) as [Hj|Hj].
    + apply Rlt_le. now apply (Hall j).
    + rewrite nth_error_app2 in Hn by assumption.
      destruct (j - length l)%nat as [|[|k]]; simpl in Hn; try discriminate.
      injection Hn as <-. apply Rle_refl.
  - exact Hall.
Qed.

(** A new element that is not strictly nearer leaves the choice alone. *)
Lemma first_closest_keep (l : list Detection) (i : nat) (d x : Detection) :
  first_closest shift l i d ->
  norm_lt (detection_center_by shift x) (detection_center_by shift d) = false ->
  first_closest shift (l ++ [x]) i d.
Proof.
  intros (Hi & Hmin & Hfirst) Hge. apply norm_lt_false in Hge.
  assert (Hil : (i < length l)%nat).
  { apply nth_error_Some. rewrite Hi. discriminate. }
  repeat split.
  - rewrite nth_error_app1 by assumption. exact Hi.
  - intros j d' Hn. destruct (Nat.lt_ge_cases j (length l)) as [Hj|Hj].
    + rewrite nth_error_app1 in Hn by assumption. now apply (Hmin j).
    + rewrite nth_error_app2 in Hn by assumption.
      destruct (j - length l)%nat as [|[|k]]; simpl in Hn; try discriminate.
      now injection Hn as <-.
  - intros j d' Hj Hn. rewrite nth_error_app1 in Hn by lia.
    now apply (Hfirst j).
Qed.

Lemma closest_detection_by_first_closest (l : list Detection) :
  l <> [] ->
  exists i d, closest_detection_by shift l = Some d /\ first_closest shift l i d.
Proof.
  induction l as [|x l IH] using rev_ind; [congruence|]. intros _.
  rewrite closest_detection_by_snoc.
  destruct l as [|y l'].
  - exists 0%nat, x. split; [reflexivity | apply first_closest_singleton].
  - destruct IH as (i & d & Hd & Hfc); [discriminate|].
    rewrite Hd. unfold closest_step.
    destruct (norm_lt (detection_center_by shift x) (detection_center_by shift d)) eqn:E.
    + exists (length (y :: l')), x. split; [reflexivity|].
      eapply first_closest_take; eassumption.
    + exists i, d. split; [reflexivity|].
      now apply first_closest_keep.
Qed.

End ClosestDetection.

(** ** Running the blocks of [execute] *)

Lemma final_detection_stage_run (dets : list Detection) (st : Final.PolicyState) :
  Final.detection_stage dets st =
  (tt, Final.mkState (final_detection_status dets) (Final.lookcount st),
   final_detection_trace dets).
Proof.
  unfold Final.detection_stage, final_detection_status, final_detection_trace,
    final_target.
  cbv [bind model emit ret app].
  destruct (Final.closest_detection (filter Final.matching dets)); reflexivity.
Qed.

Lemma final_scan_step_run (st : Final.PolicyState) :
  Final.scan_step st =
  if (Final.lookcount st <? 10)%Z
  then (tt, Final.mkState (Final.detstatus st) (Final.lookcount st + 1),
        [Motor (Left 0.1)])
  else (tt, Final.mkState (Final.detstatus st) 0, [Motor (Forward 0.2)]).
Proof.
  unfold Final.scan_step, bind, get. cbn beta iota.
  destruct (Final.lookcount st <? 10)%Z; reflexivity.
Qed.

Lemma final_hit_maneuver_run (st : Final.PolicyState) :
  Final.hit_maneuver st = (tt, st, hit_trace).
Proof. reflexivity. Qed.

(** The whole callback, branch by branch. *)
Lemma final_execute_run (y : Final.Probs) (dets : list Detection)
  (st : Final.PolicyState) :
  Final.execute y dets st =
  if Qgtb (Final.prob_free y) 0.4 && (Final.detstatus st =? 0)%Z then
    if (Final.lookcount st <? 10)%Z then
      (tt, Final.mkState (final_detection_status dets) (Final.lookcount st + 1),
       Motor (Left 0.1) :: final_detection_trace dets)
    else
      (tt, Final.mkState (final_detection_status dets) 0,
       Motor (Forward 0.2) :: final_detection_trace dets)
  else if Qgtb (Final.prob_free y) 0.4 && (Final.detstatus st =? 1)%Z then
    (tt, st, [Motor (Forward 0.2)])
  else if Qgtb (Final.prob_blocked y) 0.5 then
    (tt, Final.mkState (final_detection_status dets) (Final.lookcount st),
     Motor (Left 0.2) :: final_detection_trace dets)
  else if Qgtb (Final.prob_hit y) 0.5 then
    (tt, st, hit_trace)
  else
    (tt, Final.mkState (final_detection_status dets) (Final.lookcount st),
     final_detection_trace dets).
Proof.
  unfold Final.execute. cbv [bind get].
  destruct (Qgtb (Final.prob_free y) 0.4 && (Final.detstatus st =? 0)%Z).
  { rewrite final_scan_step_run.
    destruct (Final.lookcount st <? 10)%Z;
      rewrite final_detection_stage_run; reflexivity. }
  destruct (Qgtb (Final.prob_free y) 0.4 && (Final.detstatus st =? 1)%Z).
  { reflexivity. }
  destruct (Qgtb (Final.prob_blocked y) 0.5).
  { cbv [robot_left emit]. rewrite final_detection_stage_run. reflexivity. }
  destruct (Qgtb (Final.prob_hit y) 0.5).
  { reflexivity. }
  rewrite final_detection_stage_run. reflexivity.
Qed.

Lemma seven_detection_stage_run (speed_g : Q) (dets : list Detection) :
  Seven.detection_stage speed_g dets tt = (tt, tt, seven_detection_trace speed_g dets).
Proof.
  unfold Seven.detection_stage, seven_detection_trace, seven_target.
  cbv [bind model emit ret app].
  destruct (Seven.closest_detection (filter Seven.matching dets)); reflexivity.
Qed.

Lemma seven_execute_run (y : Seven.Probs) (speed_g : Q) (dets : list Detection) :
  Seven.execute y speed_g dets tt =
  if Qgtb (Seven.prob_free y) 0.4 then
    (tt, tt, Motor (Forward 0.2) :: seven_detection_trace speed_g dets)
  else if Qgtb (Seven.prob_red y) 0.5 || Qgtb (Seven.prob_yellow y) 0.5
          || Qgtb (Seven.prob_green y) 0.5 || Qgtb (Seven.prob_blue y) 0.5 then
    (tt, tt, [Motor (Left 0.1)])
  else if Qgtb (Seven.prob_blocked y) 0.6 then
    (tt, tt, [Motor (Left 0.2)])
  else if Qgtb (Seven.prob_hit y) 0.5 then
    (tt, tt, hit_trace)
  else
    (tt, tt, seven_detection_trace speed_g dets).
Proof.
  unfold Seven.execute.
  destruct (Qgtb (Seven.prob_free y) 0.4).
  { cbv [bind robot_forward emit]. rewrite seven_detection_stage_run. reflexivity. }
  destruct (Qgtb (Seven.prob_red y) 0.5 || Qgtb (Seven.prob_yellow y) 0.5
            || Qgtb (Seven.prob_green y) 0.5 || Qgtb (Seven.prob_blue y) 0.5).
  { reflexivity. }
  destruct (Qgtb (Seven.prob_blocked y) 0.6); [reflexivity|].
  destruct (Qgtb (Seven.prob_hit y) 0.5); [reflexivity|].
  apply seven_detection_stage_run.
Qed.

(** ** The claims on target selection *)

(** C9: [closest_detection] applied to the empty list returns [None]; the
    function is total, so there is no input on which it fails, and the
    empty list is the only one on which it answers [None]. *)
Theorem closest_detection_empty :
  Final.closest_detection [] = None /\
  Seven.closest_detection [] = None /\
  (forall shift l, closest_detection_by shift l = None <-> l = []).
Proof.
  repeat split; try reflexivity.
  - apply closest_detection_by_none.
  - now intros ->.
Qed.

(** The scenario of the specification on the seven-class notebook: of two
    balls, the centred one is chosen although it comes second. *)
Example seven_closest_scenario :
  Seven.closest_detection
    [mkDetection 37 0.9 (mkBBox 0.1 0.1 0.3 0.3);
     mkDetection 37 0.8 (mkBBox 0.45 0.45 0.55 0.55)]
  = Some (mkDetection 37 0.8 (mkBBox 0.45 0.45 0.55 0.55)).
Proof. reflexivity. Qed.

(** The same frame in final-soccerbot.ipynb: its [detection_center]
    measures from the point (0.1, 0.1), and the box in the corner wins. *)
Example final_closest_scenario :
  Final.closest_detection
    [mkDetection 37 0.9 (mkBBox 0.1 0.1 0.3 0.3);
     mkDetection 37 0.8 (mkBBox 0.45 0.45 0.55 0.55)]
  = Some (mkDetection 37 0.9 (mkBBox 0.1 0.1 0.3 0.3)).
Proof. reflexivity. Qed.

(** Ties: two boxes mirrored about the center are equally far; the first
    stays. *)
Example seven_closest_tie :
  Seven.closest_detection
    [mkDetection 37 0.9 (mkBBox 0.1 0.4 0.3 0.6);
     mkDetection 37 0.8 (mkBBox 0.7 0.4 0.9 0.6)]
  = Some (mkDetection 37 0.9 (mkBBox 0.1 0.4 0.3 0.6)).
Proof. reflexivity. Qed.

(** ** The claims on the center *)

(** The seven-class notebook and the first cell of final-soccerbot.ipynb
    compute the center offset of the specification. *)
Lemma detection_center_is_spec (d : Detection) :
  Seven.detection_center d = spec_center_offset d /\
  Final.detection_center_first_cell d = spec_center_offset d.
Proof. split; reflexivity. Qed.

(** The center offset is the signed offset of the midpoint: shifted back by
    one half it is as far from the left edge of the box as from the right
    one, and likewise on the vertical axis. *)
Lemma spec_center_offset_midpoint (d : Detection) :
  let c := spec_center_offset d in
  (fst c + 0.5) - bx1 (bbox d) == bx2 (bbox d) - (fst c + 0.5) /\
  (snd c + 0.5) - by1 (bbox d) == by2 (bbox d) - (snd c + 0.5).
Proof.
  unfold spec_center_offset. cbn [fst snd]. split; field.
Qed.

(** C2, on the code: the [detection_center] that final-soccerbot.ipynb's
    [execute] calls subtracts 0.1, not 0.5.  On every detection its result
    lies 0.4 to the right of and 0.4 below the center offset of the
    specification, so it never is that offset; the box that fills the
    image, whose offset is (0, 0), gets (0.4, 0.4). *)
Theorem final_detection_center_off_by_two_fifths :
  (forall d,
     fst (Final.detection_center d) == fst (spec_center_offset d) + 0.4 /\
     snd (Final.detection_center d) == snd (spec_center_offset d) + 0.4 /\
     ~ same_point (Final.detection_center d) (spec_center_offset d)) /\
  same_point (Final.detection_center (mkDetection 37 0.9 (mkBBox 0 0 1 1)))
             (0.4, 0.4) /\
  same_point (spec_center_offset (mkDetection 37 0.9 (mkBBox 0 0 1 1)))
             (0, 0).
Proof.
  split; [|split; split; reflexivity].
  intros d.
  assert (Hx : fst (Final.detection_center d) == fst (spec_center_offset d) + 0.4).
  { unfold Final.detection_center, detection_center_by, spec_center_offset.
    cbn [fst snd]. field. }
  assert (Hy : snd (Final.detection_center d) == snd (spec_center_offset d) + 0.4).
  { unfold Final.detection_center, detection_center_by, spec_center_offset.
    cbn [fst snd]. field. }
  repeat split; try assumption.
  intros [H _]. rewrite Hx in H. Lqa.lra.
Qed.

(** ** The claims on the branches of [execute] *)

(** The tracking flag stays 0 or 1: it starts at 0 and [execute] only ever
    stores 0 or 1. *)
Lemma tracking_flag_ok_initial : tracking_flag_ok Final.initial_state.
Proof. now left. Qed.

Lemma tracking_flag_ok_execute (y : Final.Probs) (dets : list Detection)
  (st : Final.PolicyState) :
  tracking_flag_ok st ->
  tracking_flag_ok (final_state (Final.execute y dets) st).
Proof.
  intros Hst. unfold final_state. rewrite final_execute_run.
  assert (Hd : final_detection_status dets = 0%Z \/ final_detection_status dets = 1%Z).
  { unfold final_detection_status. destruct (final_target dets); auto. }
  repeat match goal with |- context [if ?b then _ else _] => destruct b end;
    cbn [fst snd]; unfold tracking_flag_ok; cbn [Final.detstatus]; auto.
Qed.

Lemma final_detection_commands (dets : list Detection) :
  (1 <= length (motor_commands (final_detection_trace dets)) <= 2)%nat.
Proof.
  unfold final_detection_trace. destruct (final_target dets); cbn; lia.
Qed.

Lemma seven_detection_commands (speed_g : Q) (dets : list Detection) :
  (1 <= length (motor_commands (seven_detection_trace speed_g dets)) <= 2)%nat.
Proof.
  unfold seven_detection_trace. destruct (seven_target dets); cbn; lia.
Qed.

(** C1, as the code has it: a call of [execute] issues at least one and at
    most three motor commands, in both notebooks. *)
Theorem execute_one_to_three_commands :
  (forall st y dets,
     1 <= length (motor_commands (trace (Final.execute y dets) st)) <= 3)%nat /\
  (forall y speed_value dets,
     1 <= length (motor_commands (trace (Seven.execute y speed_value dets) tt))
       <= 3)%nat.
Proof.
  split.
  - intros st y dets. unfold trace. rewrite final_execute_run.
    pose proof (final_detection_commands dets) as Hd.
    repeat match goal with |- context [if ?b then _ else _] => destruct b end;
      cbn [snd motor_commands length hit_trace]; lia.
  - intros y speed_value dets. unfold trace. rewrite seven_execute_run.
    pose proof (seven_detection_commands speed_value dets) as Hd.
    repeat match goal with |- context [if ?b then _ else _] => destruct b end;
      cbn [snd motor_commands length hit_trace]; lia.
Qed.

(** C1 fails as worded: the escape manoeuvre of one frame is three motor
    commands (stop, forward, stop), and a free frame without a tracked
    target issues the scanning turn and then the default forward. *)
Lemma escape_frame_three_commands :
  motor_commands
    (trace (Final.execute (Final.mkProbs 0.1 0.1 0.8) []) Final.initial_state)
  = [Stop; Forward 0.4; Stop] /\
  ~ at_most_one_command
      (trace (Final.execute (Final.mkProbs 0.1 0.1 0.8) []) Final.initial_state) /\
  motor_commands
    (trace (Final.execute (Final.mkProbs 0.05 0.85 0.1) []) Final.initial_state)
  = [Left 0.1; Forward 0.2].
Proof.
  repeat split.
  unfold at_most_one_command. vm_compute. intros H.
  apply (Nat.nle_succ_0 1), le_S_n, H.
Qed.

(** The detection stage never touches the scan counter. *)
Lemma detection_stage_keeps_lookcount (dets : list Detection)
  (st : Final.PolicyState) :
  Final.lookcount (final_state (Final.detection_stage dets) st) = Final.lookcount st.
Proof.
  unfold final_state. now rewrite final_detection_stage_run.
Qed.

(** C5, as the code has it: on a free frame without a tracked target the
    first command is the scanning left turn at 0.1 while the counter is
    below 10, and the counter goes up by one; from 10 on the first command
    is the forward nudge at 0.2 and the counter is reset to 0.  In both
    cases the call goes on with the detection stage, which issues at least
    one more motor command. *)
Theorem scan_then_detect (st : Final.PolicyState) (y : Final.Probs)
  (dets : list Detection) :
  0.4 < Final.prob_free y ->
  Final.detstatus st = 0%Z ->
  let t := trace (Final.execute y dets) st in
  let st' := final_state (Final.execute y dets) st in
  ((Final.lookcount st < 10)%Z ->
     t = Motor (Left 0.1)
         :: trace (Final.detection_stage dets)
                  (Final.mkState 0 (Final.lookcount st + 1)) /\
     Final.lookcount st' = (Final.lookcount st + 1)%Z) /\
  ((10 <= Final.lookcount st)%Z ->
     t = Motor (Forward 0.2)
         :: trace (Final.detection_stage dets) (Final.mkState 0 0) /\
     Final.lookcount st' = 0%Z) /\
  (forall s, 1 <= length (motor_commands (trace (Final.detection_stage dets) s)))%nat.
Proof.
  intros Hfree Hds t st'. subst t st'. unfold trace, final_state.
  rewrite final_execute_run, !final_detection_stage_run.
  apply Qgtb_true_iff in Hfree. rewrite Hfree, Hds. cbn [andb Z.eqb].
  repeat split.
  - apply Z.ltb_lt in H. now rewrite H.
  - apply Z.ltb_lt in H. now rewrite H.
  - apply Z.ltb_ge in H. now rewrite H.
  - apply Z.ltb_ge in H. now rewrite H.
  - intros s. rewrite final_detection_stage_run. apply final_detection_commands.
Qed.

Lemma scan_then_detect_witness :
  trace (Final.execute (Final.mkProbs 0.05 0.85 0.02) []) (Final.mkState 0 3)
  = [Motor (Left 0.1); Detect; Motor (Forward 0.2)] /\
  Final.lookcount
    (final_state (Final.execute (Final.mkProbs 0.05 0.85 0.02) [])
                 (Final.mkState 0 3)) = 4%Z.
Proof.
  assert (Hfree : 0.4 < Final.prob_free (Final.mkProbs 0.05 0.85 0.02))
    by reflexivity.
  assert (Hds : Final.detstatus (Final.mkState 0 3) = 0%Z) by reflexivity.
  destruct (scan_then_detect (Final.mkState 0 3)
              (Final.mkProbs 0.05 0.85 0.02) [] Hfree Hds) as (Hlow & _ & _).
  destruct Hlow as [Ht Hc]; [reflexivity|].
  split; [exact Ht | exact Hc].
Defined.

(** C5 fails as worded: with the counter at 3 the frame's commands are the
    turn and then a forward, with the counter at 10 they are two forwards;
    neither frame has a single command. *)
Lemma scan_frame_two_commands :
  motor_commands
    (trace (Final.execute (Final.mkProbs 0.05 0.85 0.02) []) (Final.mkState 0 3))
  = [Left 0.1; Forward 0.2] /\
  motor_commands
    (trace (Final.execute (Final.mkProbs 0.05 0.85 0.02) []) (Final.mkState 0 10))
  = [Forward 0.2; Forward 0.2] /\
  ~ scan_decides_alone (Final.mkState 0 3) (Final.mkProbs 0.05 0.85 0.02) [] /\
  ~ scan_decides_alone (Final.mkState 0 10) (Final.mkProbs 0.05 0.85 0.02) [].
Proof.
  split; [reflexivity|]. split; [reflexivity|]. split.
  - intros [H _]. destruct H as [H _]; [reflexivity|]. vm_compute in H. discriminate.
  - intros [_ H]. destruct H as [H _]; [discriminate|]. vm_compute in H. discriminate.
Qed.

(** C10: in the seven-class notebook, when the free-space probability is
    at most 0.4 and one of the red, yellow, green and blue probabilities
    exceeds 0.5, the call does one thing only, [robot.left(0.1)]: the
    detector is not asked, and the blocked and hit probabilities play no
    part. *)
Theorem color_obstacle_turns_left (y : Seven.Probs) (speed_value : Q)
  (dets : list Detection) :
  Seven.prob_free y <= 0.4 ->
  0.5 < Seven.prob_red y \/ 0.5 < Seven.prob_yellow y \/
  0.5 < Seven.prob_green y \/ 0.5 < Seven.prob_blue y ->
  trace (Seven.execute y speed_value dets) tt = [Motor (Left 0.1)] /\
  ~ In Detect (trace (Seven.execute y speed_value dets) tt).
Proof.
  intros Hfree Hcolor.
  assert (Ht : trace (Seven.execute y speed_value dets) tt = [Motor (Left 0.1)]).
  { unfold trace. rewrite seven_execute_run.
    apply Qgtb_false_iff in Hfree. rewrite Hfree.
    assert (Hc : Qgtb (Seven.prob_red y) 0.5 || Qgtb (Seven.prob_yellow y) 0.5
                 || Qgtb (Seven.prob_green y) 0.5 || Qgtb (Seven.prob_blue y) 0.5
                 = true).
    { rewrite !orb_true_iff, !Qgtb_true_iff. tauto. }
    now rewrite Hc. }
  split; [exact Ht|]. rewrite Ht. intros [H|[]]. discriminate.
Qed.

(** A frame on which the blocked and the hit thresholds are exceeded as
    well as the one for red. *)
Lemma color_obstacle_turns_left_witness :
  trace (Seven.execute (Seven.mkProbs 0.7 0 0.1 0 0.6 0.55 0) 0.4
           [mkDetection 37 0.9 (mkBBox 0.1 0.1 0.3 0.3)]) tt
  = [Motor (Left 0.1)].
Proof.
  apply (color_obstacle_turns_left (Seven.mkProbs 0.7 0 0.1 0 0.6 0.55 0) 0.4
           [mkDetection 37 0.9 (mkBBox 0.1 0.1 0.3 0.3)]).
  - discriminate.
  - left. reflexivity.
Defined.

(** ** Priority *)

(** A rule whose guard holds wins over every later rule, whatever the later
    guards say, as soon as no earlier guard holds. *)
Lemma first_match_earliest {Obs Act : Type}
  (earlier later : list ((Obs -> bool) * Act)) (guard : Obs -> bool)
  (act default : Act) (o : Obs) :
  (forall r, In r earlier -> fst r o = false) ->
  guard o = true ->
  first_match (earlier ++ (guard, act) :: later) default o = act.
Proof.
  intros Hearlier Hguard. induction earlier as [|[g a] earlier IH]; cbn.
  - now rewrite Hguard.
  - pose proof (Hearlier (g, a) (or_introl eq_refl)) as Hg. cbn in Hg.
    rewrite Hg. apply IH. intros r Hr. apply Hearlier. now right.
Qed.

Lemma final_execute_first_match (st : Final.PolicyState) (y : Final.Probs)
  (dets : list Detection) :
  Final.execute y dets st
  = final_run_branch (first_match final_priority_list FDefault (st, y)) dets st.
Proof.
  rewrite final_execute_run.
  unfold final_priority_list, first_match. cbn [fst snd].
  destruct (Qgtb (Final.prob_free y) 0.4 && (Final.detstatus st =? 0)%Z).
  { unfold final_run_branch. cbv [bind]. rewrite final_scan_step_run.
    destruct (Final.lookcount st <? 10)%Z;
      rewrite final_detection_stage_run; reflexivity. }
  destruct (Qgtb (Final.prob_free y) 0.4 && (Final.detstatus st =? 1)%Z);
    [reflexivity|].
  destruct (Qgtb (Final.prob_blocked y) 0.5).
  { unfold final_run_branch. cbv [bind robot_left emit].
    rewrite final_detection_stage_run. reflexivity. }
  destruct (Qgtb (Final.prob_hit y) 0.5); [reflexivity|].
  unfold final_run_branch. now rewrite final_detection_stage_run.
Qed.

Lemma seven_execute_first_match (y : Seven.Probs) (speed_value : Q)
  (dets : list Detection) :
  Seven.execute y speed_value dets tt
  = seven_run_branch (first_match seven_priority_list SDefault y)
      speed_value dets tt.
Proof.
  unfold Seven.execute, seven_priority_list, first_match.
  repeat match goal with |- context [if ?b then _ else _] => destruct b end;
    reflexivity.
Qed.

Lemma final_detection_trace_events (dets : list Detection) :
  ~ In (Motor (Left 0.2)) (final_detection_trace dets) /\
  ~ In (Motor (Forward 0.4)) (final_detection_trace dets) /\
  ~ In (Print "Entered into hit") (final_detection_trace dets).
Proof.
  unfold final_detection_trace, final_steer_trace.
  destruct (final_target dets);
    (split; [|split]); intros H; cbn [In] in H;
    repeat match goal with H : _ \/ _ |- _ => destruct H as [H|H] end;
    try discriminate; assumption.
Qed.

Lemma seven_detection_trace_events (speed_g : Q) (dets : list Detection) :
  (forall v, ~ In (Motor (Left v)) (seven_detection_trace speed_g dets)) /\
  ~ In (Motor (Forward 0.4)) (seven_detection_trace speed_g dets) /\
  ~ In (Print "Entered into hit") (seven_detection_trace speed_g dets).
Proof.
  unfold seven_detection_trace, seven_steer_trace.
  destruct (seven_target dets);
    (split; [intros v|split]); intros H; cbn [In] in H;
    repeat match goal with H : _ \/ _ |- _ => destruct H as [H|H] end;
    try discriminate; assumption.
Qed.

(** C3: [execute] runs the branch of the first rule of the priority list
    whose guard holds, in both notebooks.  So a free-space probability
    above 0.4 decides the frame whatever the blocked and hit probabilities
    are: the branch is the search or the approach branch (final notebook,
    tracking flag 0 or 1), the forward branch (seven-class notebook), and
    the trace has neither the blocked branch's turn nor anything of the
    escape manoeuvre. *)
Theorem execute_first_match_wins :
  (forall st y dets,
     Final.execute y dets st
     = final_run_branch (first_match final_priority_list FDefault (st, y))
         dets st) /\
  (forall y speed_value dets,
     Seven.execute y speed_value dets tt
     = seven_run_branch (first_match seven_priority_list SDefault y)
         speed_value dets tt) /\
  (forall st y dets,
     tracking_flag_ok st -> 0.4 < Final.prob_free y ->
     (first_match final_priority_list FDefault (st, y) = FScan \/
      first_match final_priority_list FDefault (st, y) = FTracked) /\
     ~ In (Motor (Left 0.2)) (trace (Final.execute y dets) st) /\
     ~ In (Motor (Forward 0.4)) (trace (Final.execute y dets) st) /\
     ~ In (Print "Entered into hit") (trace (Final.execute y dets) st)) /\
  (forall y speed_value dets,
     0.4 < Seven.prob_free y ->
     first_match seven_priority_list SDefault y = SFree /\
     (forall v, ~ In (Motor (Left v)) (trace (Seven.execute y speed_value dets) tt)) /\
     ~ In (Motor (Forward 0.4)) (trace (Seven.execute y speed_value dets) tt) /\
     ~ In (Print "Entered into hit") (trace (Seven.execute y speed_value dets) tt)).
Proof.
  split; [exact final_execute_first_match|].
  split; [exact seven_execute_first_match|].
  split.
  - intros st y dets Hst Hfree. apply Qgtb_true_iff in Hfree.
    destruct (final_detection_trace_events dets) as (Hl & Hf & Hp).
    unfold trace. rewrite final_execute_run.
    unfold final_priority_list, first_match. cbn [fst snd].
    rewrite Hfree. cbn [andb].
    destruct Hst as [-> | ->]; cbn [Z.eqb].
    + split; [now left|].
      destruct (Final.lookcount st <? 10)%Z; cbn [snd];
        (split; [|split]); intros H; cbn [In] in H; destruct H as [H|H];
        try discriminate; auto.
    + split; [now right|]. cbn [snd].
      (split; [|split]); intros H; cbn [In] in H; destruct H as [H|[]];
        discriminate.
  - intros y speed_value dets Hfree. apply Qgtb_true_iff in Hfree.
    destruct (seven_detection_trace_events speed_value dets) as (Hl & Hf & Hp).
    unfold trace. rewrite seven_execute_run.
    unfold seven_priority_list, first_match. rewrite Hfree. cbn [snd].
    split; [reflexivity|].
    (split; [intros v|split]); intros H; cbn [In] in H; destruct H as [H|H];
      try discriminate; auto.
    now apply (Hl v).
Qed.

Lemma execute_first_match_wins_witness :
  0.5 < Final.prob_blocked (Final.mkProbs 0.55 0.45 0) /\
  (first_match final_priority_list FDefault
     (Final.initial_state, Final.mkProbs 0.55 0.45 0) = FScan \/
   first_match final_priority_list FDefault
     (Final.initial_state, Final.mkProbs 0.55 0.45 0) = FTracked) /\
  ~ In (Motor (Left 0.2))
       (trace (Final.execute (Final.mkProbs 0.55 0.45 0) []) Final.initial_state).
Proof.
  split; [reflexivity|].
  destruct execute_first_match_wins as (_ & _ & Hfinal & _).
  destruct (Hfinal Final.initial_state (Final.mkProbs 0.55 0.45 0) [])
    as (Hb & Hl & _).
  - left. reflexivity.
  - reflexivity.
  - split; assumption.
Defined.

(** ** The escape manoeuvre *)

Lemma hit_trace_guarded : guarded_escape hit_trace.
Proof.
  repeat split.
  exists [Print "Entered into hit"]. split; reflexivity.
Qed.

(** C7, as the code has it: when the hit probability exceeds 0.5 and no
    earlier branch fires (free-space probability at most 0.4, blocked
    probability at most its threshold and, in the seven-class notebook, no
    colour probability above 0.5), the call detaches from the camera, then
    pauses, stops, pauses, drives forward at 0.4, pauses, stops, pauses,
    and only then attaches again; every motor command and every pause of
    the call happens while it is detached, and the policy state is left as
    it was. *)
Theorem escape_when_no_earlier_branch :
  (forall st y dets,
     Final.prob_free y <= 0.4 -> Final.prob_blocked y <= 0.5 ->
     0.5 < Final.prob_hit y ->
     trace (Final.execute y dets) st = hit_trace /\
     final_state (Final.execute y dets) st = st /\
     guarded_escape (trace (Final.execute y dets) st)) /\
  (forall y speed_value dets,
     Seven.prob_free y <= 0.4 ->
     Seven.prob_red y <= 0.5 -> Seven.prob_yellow y <= 0.5 ->
     Seven.prob_green y <= 0.5 -> Seven.prob_blue y <= 0.5 ->
     Seven.prob_blocked y <= 0.6 ->
     0.5 < Seven.prob_hit y ->
     trace (Seven.execute y speed_value dets) tt = hit_trace /\
     guarded_escape (trace (Seven.execute y speed_value dets) tt)).
Proof.
  split.
  - intros st y dets Hfree Hblocked Hhit.
    apply Qgtb_false_iff in Hfree, Hblocked. apply Qgtb_true_iff in Hhit.
    unfold trace, final_state. rewrite final_execute_run.
    rewrite Hfree, Hblocked, Hhit. cbn [andb fst snd].
    repeat split; try reflexivity.
    exists [Print "Entered into hit"]. split; reflexivity.
  - intros y speed_value dets Hfree Hred Hyellow Hgreen Hblue Hblocked Hhit.
    apply Qgtb_false_iff in Hfree, Hred, Hyellow, Hgreen, Hblue, Hblocked.
    apply Qgtb_true_iff in Hhit.
    unfold trace. rewrite seven_execute_run.
    rewrite Hfree, Hred, Hyellow, Hgreen, Hblue, Hblocked, Hhit.
    cbn [orb snd].
    repeat split; try reflexivity.
    exists [Print "Entered into hit"]. split; reflexivity.
Qed.

Lemma escape_when_no_earlier_branch_witness :
  trace (Final.execute (Final.mkProbs 0.1 0.1 0.8) []) Final.initial_state
  = hit_trace /\
  trace (Seven.execute (Seven.mkProbs 0.1 0 0.1 0 0.8 0 0) 0.4 []) tt
  = hit_trace.
Proof.
  destruct escape_when_no_earlier_branch as [Hfinal Hseven]. split.
  - apply (Hfinal Final.initial_state (Final.mkProbs 0.1 0.1 0.8) []);
      [discriminate | discriminate | reflexivity].
  - apply (Hseven (Seven.mkProbs 0.1 0 0.1 0 0.8 0 0) 0.4 []);
      try discriminate; reflexivity.
Defined.

(** C7 fails as worded: with the free-space probability at 0.45 and the hit
    probability at 0.55 the search branch runs; the robot turns and drives
    while [execute] stays attached, and there is no escape manoeuvre. *)
Lemma hit_above_threshold_without_escape :
  0.5 < Final.prob_hit (Final.mkProbs 0 0.45 0.55) /\
  trace (Final.execute (Final.mkProbs 0 0.45 0.55) []) Final.initial_state
  = [Motor (Left 0.1); Detect; Motor (Forward 0.2)] /\
  acts_while_detached true
    (trace (Final.execute (Final.mkProbs 0 0.45 0.55) []) Final.initial_state)
  = false /\
  ~ guarded_escape
      (trace (Final.execute (Final.mkProbs 0 0.45 0.55) []) Final.initial_state).
Proof.
  split; [reflexivity|]. split; [reflexivity|]. split; [reflexivity|].
  intros (Hcmds & _). vm_compute in Hcmds. discriminate.
Qed.

(** ** Steering *)

Lemma closest_detection_by_In (shift : Q) (l : list Detection) (d : Detection) :
  closest_detection_by shift l = Some d -> In d l.
Proof.
  intros Hd. destruct l as [|x l]; [discriminate|].
  destruct (closest_detection_by_first_closest shift (x :: l))
    as (i & d' & Hd' & Hi & _); [discriminate|].
  rewrite Hd in Hd'. injection Hd' as <-.
  eapply nth_error_In; exact Hi.
Qed.

Lemma final_target_In (dets : list Detection) (det : Detection) :
  final_target dets = Some det -> In det dets /\ Final.matching det = true.
Proof.
  unfold final_target, Final.closest_detection. intros H.
  apply closest_detection_by_In in H. apply filter_In in H. exact H.
Qed.

Lemma seven_target_In (dets : list Detection) (det : Detection) :
  seven_target dets = Some det -> In det dets /\ Seven.matching det = true.
Proof.
  unfold seven_target, Seven.closest_detection. intros H.
  apply closest_detection_by_In in H. apply filter_In in H. exact H.
Qed.

(** The only [set_motors] of the detection stage is the one for its target. *)
Lemma final_detection_trace_set_motors (dets : list Detection) (l r : Q) :
  In (Motor (SetMotors l r)) (final_detection_trace dets) ->
  exists det, final_target dets = Some det /\
    l = 0.5 + 0.2 * fst (Final.detection_center det) /\
    r = 0.5 - 0.2 * fst (Final.detection_center det).
Proof.
  unfold final_detection_trace, final_steer_trace.
  destruct (final_target dets) as [det|]; cbn [In]; intros H;
    repeat match goal with H : _ \/ _ |- _ => destruct H as [H|H] end;
    try discriminate; try contradiction.
  injection H as <- <-. now exists det.
Qed.

Lemma seven_detection_trace_set_motors (speed_g : Q) (dets : list Detection)
  (l r : Q) :
  In (Motor (SetMotors l r)) (seven_detection_trace speed_g dets) ->
  exists det, seven_target dets = Some det /\
    l = speed_g + 0.30 * fst (Seven.detection_center det) /\
    r = speed_g - 0.30 * fst (Seven.detection_center det).
Proof.
  unfold seven_detection_trace, seven_steer_trace.
  destruct (seven_target dets) as [det|]; cbn [In]; intros H;
    repeat match goal with H : _ \/ _ |- _ => destruct H as [H|H] end;
    try discriminate; try contradiction.
  injection H as <- <-. now exists det.
Qed.

Lemma final_execute_set_motors (st : Final.PolicyState) (y : Final.Probs)
  (dets : list Detection) (l r : Q) :
  In (Motor (SetMotors l r)) (trace (Final.execute y dets) st) ->
  exists det, final_target dets = Some det /\
    l = 0.5 + 0.2 * fst (Final.detection_center det) /\
    r = 0.5 - 0.2 * fst (Final.detection_center det).
Proof.
  unfold trace. rewrite final_execute_run.
  repeat match goal with |- context [if ?b then _ else _] => destruct b end;
    cbn [snd hit_trace In]; intros H;
    repeat match goal with H : _ \/ _ |- _ => destruct H as [H|H] end;
    try discriminate; try contradiction;
    now apply final_detection_trace_set_motors.
Qed.

Lemma seven_execute_set_motors (y : Seven.Probs) (speed_g : Q)
  (dets : list Detection) (l r : Q) :
  In (Motor (SetMotors l r)) (trace (Seven.execute y speed_g dets) tt) ->
  exists det, seven_target dets = Some det /\
    l = speed_g + 0.30 * fst (Seven.detection_center det) /\
    r = speed_g - 0.30 * fst (Seven.detection_center det).
Proof.
  unfold trace. rewrite seven_execute_run.
  repeat match goal with |- context [if ?b then _ else _] => destruct b end;
    cbn [snd hit_trace In]; intros H;
    repeat match goal with H : _ \/ _ |- _ => destruct H as [H|H] end;
    try discriminate; try contradiction;
    now apply seven_detection_trace_set_motors.
Qed.

(** Every [set_motors] of a call is a steering command for the target of
    the frame. *)
Lemma set_motors_steers :
  (forall st y dets l r,
     In (Motor (SetMotors l r)) (trace (Final.execute y dets) st) ->
     exists det, steers 0.5 0.2 det (fst (Final.detection_center det)) l r) /\
  (forall y speed_g dets l r,
     In (Motor (SetMotors l r)) (trace (Seven.execute y speed_g dets) tt) ->
     exists det, steers speed_g 0.30 det (fst (Seven.detection_center det)) l r).
Proof.
  split.
  - intros st y dets l r H.
    destruct (final_execute_set_motors st y dets l r H) as (det & Ht & _).
    exists det. now apply (steers_final st y dets).
  - intros y speed_g dets l r H.
    destruct (seven_execute_set_motors y speed_g dets l r H) as (det & Ht & _).
    exists det. now apply (steers_seven y speed_g dets).
Qed.

(** The shape of a steering command. *)
Lemma steers_linear (base gain : Q) (det : Detection) (cx l r : Q) :
  steers base gain det cx l r ->
  (gain = 0.2 \/ gain = 0.30) /\ l = base + gain * cx /\ r = base - gain * cx.
Proof.
  intros H. destruct H as [st y dets det l r Ht Hin | y sp dets det l r Ht Hin].
  - destruct (final_execute_set_motors st y dets l r Hin) as (det' & Ht' & Hl & Hr).
    rewrite Ht in Ht'. injection Ht' as <-. auto.
  - destruct (seven_execute_set_motors y sp dets l r Hin) as (det' & Ht' & Hl & Hr).
    rewrite Ht in Ht'. injection Ht' as <-. auto.
Qed.

(** The horizontal center of a box in the unit square. *)
Lemma center_x_range (shift : Q) (det : Detection) :
  bbox_in_unit (bbox det) ->
  - shift <= fst (detection_center_by shift det) <= 1 - shift.
Proof.
  intros ((Hx1a & Hx1b) & _ & (Hx2a & Hx2b) & _).
  unfold detection_center_by. cbn [fst].
  assert (Hm : (bx1 (bbox det) + bx2 (bbox det)) / 2
               == (1 # 2) * (bx1 (bbox det) + bx2 (bbox det))) by field.
  rewrite Hm. split; Lqa.lra.
Qed.

(** C8, as the code has it: for a target whose box lies in the unit square
    and a base speed in [0, 1], both wheel speeds passed to [set_motors]
    are at least -1 and at most 1.15; they are within [-1, 1] as soon as
    the base speed is at most 0.85, which includes every call of the final
    notebook, whose base speed is the constant 0.5. *)
Theorem wheel_speeds_range (base gain : Q) (det : Detection) (cx l r : Q) :
  steers base gain det cx l r ->
  bbox_in_unit (bbox det) ->
  0 <= base <= 1 ->
  (-1 <= l <= 1.15 /\ -1 <= r <= 1.15) /\
  (base <= 0.85 -> in_motor_range l /\ in_motor_range r) /\
  (gain = 0.2 -> base = 0.5 /\ in_motor_range l /\ in_motor_range r).
Proof.
  intros Hs Hbox Hbase. unfold in_motor_range.
  destruct Hs as [st y dets det l r Ht Hin | y sp dets det l r Ht Hin].
  - destruct (final_execute_set_motors st y dets l r Hin) as (d' & Ht' & -> & ->).
    rewrite Ht in Ht'. injection Ht' as <-.
    pose proof (center_x_range 0.1 det Hbox) as Hc.
    unfold Final.detection_center.
    set (c := fst (detection_center_by 0.1 det)) in *.
    repeat split; intros; Lqa.lra.
  - destruct (seven_execute_set_motors y sp dets l r Hin) as (d' & Ht' & -> & ->).
    rewrite Ht in Ht'. injection Ht' as <-.
    pose proof (center_x_range 0.5 det Hbox) as Hc.
    unfold Seven.detection_center.
    set (c := fst (detection_center_by 0.5 det)) in *.
    repeat split; intros; try discriminate; Lqa.lra.
Qed.

Lemma wheel_speeds_range_witness :
  exists l r,
    In (Motor (SetMotors l r))
       (trace (Seven.execute (Seven.mkProbs 0.1 0.1 0.2 0.1 0.3 0.1 0.1) 0.4
                 [mkDetection 37 0.9 (mkBBox 0.8 0 1 1)]) tt) /\
    in_motor_range l /\ in_motor_range r.
Proof.
  pose (d := mkDetection 37 0.9 (mkBBox 0.8 0 1 1)).
  pose (cx := fst (Seven.detection_center d)).
  assert (Hin : In (Motor (SetMotors (0.4 + 0.30 * cx) (0.4 - 0.30 * cx)))
                  (trace (Seven.execute (Seven.mkProbs 0.1 0.1 0.2 0.1 0.3 0.1 0.1)
                            0.4 [d]) tt)).
  { do 5 right. left. reflexivity. }
  assert (Hs : steers 0.4 0.30 d cx (0.4 + 0.30 * cx) (0.4 - 0.30 * cx)).
  { apply (steers_seven (Seven.mkProbs 0.1 0.1 0.2 0.1 0.3 0.1 0.1) 0.4 [d] d);
      [reflexivity | exact Hin]. }
  assert (Hbox : bbox_in_unit (bbox d)).
  { unfold bbox_in_unit, d. cbn. repeat split; discriminate. }
  assert (Hbase : 0 <= 0.4 <= 1) by (split; discriminate).
  destruct (wheel_speeds_range _ _ _ _ _ _ Hs Hbox Hbase) as (_ & Hrange & _).
  exists (0.4 + 0.30 * cx), (0.4 - 0.30 * cx).
  split; [exact Hin | apply Hrange; discriminate].
Defined.

(** C8 fails as worded: with the speed slider at its maximum 1 and a target
    in the right part of the image the left wheel is given 1.12. *)
Lemma full_speed_leaves_motor_range :
  bbox_in_unit (mkBBox 0.8 0 1 1) /\
  0 <= 1 <= 1 /\
  exists l r,
    In (Motor (SetMotors l r))
       (trace (Seven.execute (Seven.mkProbs 0.1 0.1 0.2 0.1 0.3 0.1 0.1) 1
                 [mkDetection 37 0.9 (mkBBox 0.8 0 1 1)]) tt) /\
    l == 1.12 /\ ~ in_motor_range l.
Proof.
  split; [unfold bbox_in_unit; cbn; repeat split; discriminate|].
  split; [split; discriminate|].
  pose (cx := fst (Seven.detection_center (mkDetection 37 0.9 (mkBBox 0.8 0 1 1)))).
  exists (1 + 0.30 * cx), (1 - 0.30 * cx).
  split; [do 5 right; left; reflexivity|].
  split; [reflexivity|].
  intros [_ H]. apply H. reflexivity.
Qed.

(** * Further properties of the code *)

(** ** Sessions of several frames *)

Lemma final_frames_cons (f : FinalFrame) (rest : list FinalFrame)
  (st : Final.PolicyState) :
  final_state (final_frames (f :: rest)) st
  = final_state (final_frames rest)
      (final_state (Final.execute (frame_probs f) (frame_detections f)) st) /\
  trace (final_frames (f :: rest)) st
  = trace (Final.execute (frame_probs f) (frame_detections f)) st
    ++ trace (final_frames rest)
         (final_state (Final.execute (frame_probs f) (frame_detections f)) st).
Proof.
  unfold final_state, trace. cbn [final_frames]. cbv [bind].
  destruct (Final.execute (frame_probs f) (frame_detections f) st) as [[u s1] t1].
  cbn [fst snd].
  destruct (final_frames rest s1) as [[u' s2] t2]. split; reflexivity.
Qed.

Lemma scan_counter_ok_execute (y : Final.Probs) (dets : list Detection)
  (st : Final.PolicyState) :
  scan_counter_ok st ->
  scan_counter_ok (final_state (Final.execute y dets) st).
Proof.
  unfold scan_counter_ok, final_state. intros Hst. rewrite final_execute_run.
  destruct (Z.ltb_spec (Final.lookcount st) 10);
    repeat match goal with |- context [if ?b then _ else _] => destruct b end;
    cbn [fst snd Final.lookcount]; lia.
Qed.

(** Invariant of a session: whatever frames arrive, the tracking flag stays
    0 or 1 and the scan counter stays within 0..10. *)
Theorem session_keeps_state_in_range (frames : list FinalFrame)
  (st : Final.PolicyState) :
  tracking_flag_ok st -> scan_counter_ok st ->
  tracking_flag_ok (final_state (final_frames frames) st) /\
  scan_counter_ok (final_state (final_frames frames) st).
Proof.
  revert st. induction frames as [|f rest IH]; intros st Hflag Hcount.
  - split; assumption.
  - destruct (final_frames_cons f rest st) as [-> _].
    apply IH; [now apply tracking_flag_ok_execute | now apply scan_counter_ok_execute].
Qed.

Lemma session_keeps_state_in_range_witness :
  scan_counter_ok
    (final_state
       (final_frames
          [mkFrame (Final.mkProbs 0.05 0.85 0.1) [];
           mkFrame (Final.mkProbs 0.7 0.1 0.2)
                   [mkDetection 37 0.9 (mkBBox 0.1 0.1 0.3 0.3)];
           mkFrame (Final.mkProbs 0.1 0.1 0.8) []])
       Final.initial_state).
Proof.
  apply (session_keeps_state_in_range
           [mkFrame (Final.mkProbs 0.05 0.85 0.1) [];
            mkFrame (Final.mkProbs 0.7 0.1 0.2)
                    [mkDetection 37 0.9 (mkBBox 0.1 0.1 0.3 0.3)];
            mkFrame (Final.mkProbs 0.1 0.1 0.8) []]
           Final.initial_state).
  - left. reflexivity.
  - split; discriminate.
Defined.

Lemma empty_free_frame_step (f : FinalFrame) (c : Z) :
  empty_free_frame f -> (0 <= c <= 10)%Z ->
  final_state (Final.execute (frame_probs f) (frame_detections f))
              (Final.mkState 0 c)
  = Final.mkState 0 ((c + 1) mod 11).
Proof.
  intros [Hfree Hnone] Hc. apply Qgtb_true_iff in Hfree.
  unfold final_state. rewrite final_execute_run.
  unfold final_detection_status. rewrite Hfree, Hnone.
  cbn [andb Final.detstatus Final.lookcount Z.eqb].
  destruct (Z.ltb_spec c 10); cbn [fst snd]; f_equal.
  - rewrite Z.mod_small; lia.
  - replace c with 10%Z by lia. reflexivity.
Qed.

(** The search cycle: over frames with free space and no target in view
    the scan counter counts the frames modulo 11, so ten scanning frames
    are followed by one nudge, and the tracking flag stays 0. *)
Theorem search_cycle_has_period_eleven (frames : list FinalFrame) (c : Z) :
  (0 <= c <= 10)%Z ->
  Forall empty_free_frame frames ->
  final_state (final_frames frames) (Final.mkState 0 c)
  = Final.mkState 0 ((c + Z.of_nat (length frames)) mod 11).
Proof.
  revert c. induction frames as [|f rest IH]; intros c Hc Hall.
  - cbn [length Z.of_nat]. rewrite Z.add_0_r, Z.mod_small by lia. reflexivity.
  - inversion Hall as [|f' rest' Hf Hrest]; subst.
    destruct (final_frames_cons f rest (Final.mkState 0 c)) as [-> _].
    rewrite (empty_free_frame_step f c Hf Hc).
    pose proof (Z.mod_pos_bound (c + 1) 11 eq_refl) as Hm.
    rewrite IH; [|lia | assumption].
    f_equal. rewrite Zplus_mod_idemp_l. f_equal.
    cbn [length]. lia.
Qed.

Lemma search_cycle_has_period_eleven_witness :
  final_state
    (final_frames (repeat (mkFrame (Final.mkProbs 0.05 0.85 0.1) []) 11))
    Final.initial_state
  = Final.initial_state.
Proof.
  apply (search_cycle_has_period_eleven
           (repeat (mkFrame (Final.mkProbs 0.05 0.85 0.1) []) 11) 0).
  - split; discriminate.
  - repeat constructor.
Defined.

(** Once the tracking flag is 1, frames with free space only ever drive
    forward: the detector is not asked again, so on such frames the flag
    cannot go back to 0 and the state does not change. *)
Theorem tracking_locks_in_on_free_frames (frames : list FinalFrame)
  (st : Final.PolicyState) :
  Final.detstatus st = 1%Z ->
  Forall (fun f => 0.4 < Final.prob_free (frame_probs f)) frames ->
  final_state (final_frames frames) st = st /\
  trace (final_frames frames) st = map (fun _ => Motor (Forward 0.2)) frames.
Proof.
  intros Hds Hall. induction Hall as [|f rest Hf Hrest IH].
  - split; reflexivity.
  - destruct (final_frames_cons f rest st) as [-> ->].
    assert (Hrun : Final.execute (frame_probs f) (frame_detections f) st
                   = (tt, st, [Motor (Forward 0.2)])).
    { rewrite final_execute_run. apply Qgtb_true_iff in Hf.
      now rewrite Hf, Hds. }
    assert (Hst : final_state
                    (Final.execute (frame_probs f) (frame_detections f)) st = st)
      by (unfold final_state; now rewrite Hrun).
    assert (Htr : trace (Final.execute (frame_probs f) (frame_detections f)) st
                  = [Motor (Forward 0.2)])
      by (unfold trace; now rewrite Hrun).
    rewrite Hst, Htr. destruct IH as [-> ->]. split; reflexivity.
Qed.

Lemma tracking_locks_in_on_free_frames_witness :
  trace (final_frames
           [mkFrame (Final.mkProbs 0.05 0.85 0.1) [];
            mkFrame (Final.mkProbs 0.5 0.45 0.05)
                    [mkDetection 37 0.9 (mkBBox 0.1 0.1 0.3 0.3)]])
        (Final.mkState 1 4)
  = [Motor (Forward 0.2); Motor (Forward 0.2)].
Proof.
  apply (tracking_locks_in_on_free_frames
           [mkFrame (Final.mkProbs 0.05 0.85 0.1) [];
            mkFrame (Final.mkProbs 0.5 0.45 0.05)
                    [mkDetection 37 0.9 (mkBBox 0.1 0.1 0.3 0.3)]]
           (Final.mkState 1 4)).
  - reflexivity.
  - repeat constructor.
Defined.

(** ** One call: detector, subscription, motors *)

(** The detector is asked at most once per call, and which branches ask it:
    in final-soccerbot.ipynb all but the approach and the escape branch, in
    the seven-class notebook only the free-space and the default branch. *)
Theorem detector_asked_by_branch :
  (forall st y dets,
     detector_calls (trace (Final.execute y dets) st)
     = match first_match final_priority_list FDefault (st, y) with
       | FTracked | FHit => 0%nat
       | FScan | FBlocked | FDefault => 1%nat
       end) /\
  (forall y speed_value dets,
     detector_calls (trace (Seven.execute y speed_value dets) tt)
     = match first_match seven_priority_list SDefault y with
       | SFree | SDefault => 1%nat
       | SColor | SBlocked | SHit => 0%nat
       end).
Proof.
  assert (Hf : forall dets, detector_calls (final_detection_trace dets) = 1%nat).
  { intros dets. unfold final_detection_trace. now destruct (final_target dets). }
  assert (Hs : forall sp dets, detector_calls (seven_detection_trace sp dets) = 1%nat).
  { intros sp dets. unfold seven_detection_trace. now destruct (seven_target dets). }
  split.
  - intros st y dets. unfold trace. rewrite final_execute_run.
    unfold final_priority_list, first_match. cbn [fst snd].
    repeat match goal with |- context [if ?b then _ else _] => destruct b end;
      cbn [snd detector_calls]; rewrite ?Hf; reflexivity.
  - intros y sp dets. unfold trace. rewrite seven_execute_run.
    unfold seven_priority_list, first_match.
    repeat match goal with |- context [if ?b then _ else _] => destruct b end;
      cbn [snd detector_calls]; rewrite ?Hs; reflexivity.
Qed.

Lemma final_detection_trace_balanced (dets : list Detection) :
  subscribed_at_end true (final_detection_trace dets) = true /\
  (In UnobserveAll (final_detection_trace dets) ->
   exists cmds, motor_commands (final_detection_trace dets) = cmds ++ [Stop]).
Proof.
  unfold final_detection_trace. destruct (final_target dets) as [det|].
  - split; [reflexivity|]. intros _.
    exists [SetMotors (0.5 + 0.2 * fst (Final.detection_center det))
                      (0.5 - 0.2 * fst (Final.detection_center det))].
    reflexivity.
  - split; [reflexivity|]. cbn [In]. intros [H|[H|[]]]; discriminate.
Qed.

Lemma seven_detection_trace_balanced (speed_g : Q) (dets : list Detection) :
  subscribed_at_end true (seven_detection_trace speed_g dets) = true /\
  (In UnobserveAll (seven_detection_trace speed_g dets) ->
   exists cmds,
     motor_commands (seven_detection_trace speed_g dets) = cmds ++ [Stop]).
Proof.
  unfold seven_detection_trace. destruct (seven_target dets) as [det|].
  - split; [reflexivity|]. intros _.
    exists [SetMotors (speed_g + 0.30 * fst (Seven.detection_center det))
                      (speed_g - 0.30 * fst (Seven.detection_center det))].
    reflexivity.
  - split; [reflexivity|]. cbn [In]. intros [H|[H|[]]]; discriminate.
Qed.

(** A call that starts attached to the camera ends attached, and a call
    that detaches on the way (escape or steering) has [robot.stop()] as
    its last motor command.  Both notebooks. *)
Theorem calls_end_attached_and_detaching_calls_end_stopped :
  (forall st y dets,
     subscribed_at_end true (trace (Final.execute y dets) st) = true /\
     (In UnobserveAll (trace (Final.execute y dets) st) ->
      exists cmds,
        motor_commands (trace (Final.execute y dets) st) = cmds ++ [Stop])) /\
  (forall y speed_value dets,
     subscribed_at_end true (trace (Seven.execute y speed_value dets) tt) = true /\
     (In UnobserveAll (trace (Seven.execute y speed_value dets) tt) ->
      exists cmds,
        motor_commands (trace (Seven.execute y speed_value dets) tt)
        = cmds ++ [Stop])).
Proof.
  split.
  - intros st y dets. unfold trace. rewrite final_execute_run.
    destruct (final_detection_trace_balanced dets) as [Hend Hstop].
    repeat match goal with |- context [if ?b then _ else _] => destruct b end;
      cbn [snd]; (split; [exact Hend || reflexivity |]).
    + intros [H|H]; [discriminate|]. destruct (Hstop H) as [cmds Hc].
      exists (Left 0.1 :: cmds). cbn [motor_commands]. now rewrite Hc.
    + intros [H|H]; [discriminate|]. destruct (Hstop H) as [cmds Hc].
      exists (Forward 0.2 :: cmds). cbn [motor_commands]. now rewrite Hc.
    + intros [H|[]]. discriminate.
    + intros [H|H]; [discriminate|]. destruct (Hstop H) as [cmds Hc].
      exists (Left 0.2 :: cmds). cbn [motor_commands]. now rewrite Hc.
    + intros _. exists [Stop; Forward 0.4]. reflexivity.
    + exact Hstop.
  - intros y sp dets. unfold trace. rewrite seven_execute_run.
    destruct (seven_detection_trace_balanced sp dets) as [Hend Hstop].
    repeat match goal with |- context [if ?b then _ else _] => destruct b end;
      cbn [snd]; (split; [exact Hend || reflexivity |]).
    + intros [H|H]; [discriminate|]. destruct (Hstop H) as [cmds Hc].
      exists (Forward 0.2 :: cmds). cbn [motor_commands]. now rewrite Hc.
    + intros [H|[]]. discriminate.
    + intros [H|[]]. discriminate.
    + intros _. exists [Stop; Forward 0.4]. reflexivity.
    + exact Hstop.
Qed.

Lemma calls_end_attached_and_detaching_calls_end_stopped_witness :
  exists cmds,
    motor_commands
      (trace (Seven.execute (Seven.mkProbs 0.1 0.1 0.2 0.1 0.3 0.1 0.1) 0.4
                [mkDetection 37 0.9 (mkBBox 0.45 0.45 0.55 0.55)]) tt)
    = cmds ++ [Stop].
Proof.
  destruct calls_end_attached_and_detaching_calls_end_stopped as [_ Hseven].
  apply (Hseven (Seven.mkProbs 0.1 0.1 0.2 0.1 0.3 0.1 0.1) 0.4
           [mkDetection 37 0.9 (mkBBox 0.45 0.45 0.55 0.55)]).
  do 2 right. left. reflexivity.
Defined.

(** How long a steering command stands.  In final-soccerbot.ipynb
    [set_motors] is followed by a pause of one second and then by
    [robot.stop()]; in the seven-class notebook [robot.stop()] follows
    [set_motors] at once, with no pause in between. *)
Theorem steering_command_then_stop :
  (forall st y dets l r,
     In (Motor (SetMotors l r)) (trace (Final.execute y dets) st) ->
     exists before after,
       trace (Final.execute y dets) st
       = before ++ Motor (SetMotors l r) :: Sleep 1 :: Motor Stop :: after) /\
  (forall y speed_value dets l r,
     In (Motor (SetMotors l r)) (trace (Seven.execute y speed_value dets) tt) ->
     exists before after,
       trace (Seven.execute y speed_value dets) tt
       = before ++ Motor (SetMotors l r) :: Motor Stop :: after).
Proof.
  assert (Hf : forall dets l r,
             In (Motor (SetMotors l r)) (final_detection_trace dets) ->
             exists before after,
               final_detection_trace dets
               = before ++ Motor (SetMotors l r) :: Sleep 1 :: Motor Stop :: after).
  { intros dets l r Hin.
    destruct (final_detection_trace_set_motors dets l r Hin) as (det & Ht & -> & ->).
    unfold final_detection_trace, final_steer_trace. rewrite Ht.
    exists [Detect; Print "Entering ball detect";
            PrintCenter (Final.detection_center det)].
    eexists. reflexivity. }
  assert (Hs : forall sp dets l r,
             In (Motor (SetMotors l r)) (seven_detection_trace sp dets) ->
             exists before after,
               seven_detection_trace sp dets
               = before ++ Motor (SetMotors l r) :: Motor Stop :: after).
  { intros sp dets l r Hin.
    destruct (seven_detection_trace_set_motors sp dets l r Hin) as (det & Ht & -> & ->).
    unfold seven_detection_trace, seven_steer_trace. rewrite Ht.
    exists [Detect; Print "Entering ball detect"; UnobserveAll; Sleep 0.5;
            PrintCenter (Seven.detection_center det)].
    eexists. reflexivity. }
  split.
  - intros st y dets l r. unfold trace. rewrite final_execute_run.
    repeat match goal with |- context [if ?b then _ else _] => destruct b end;
      cbn [snd hit_trace In]; intros H;
      repeat match goal with H : _ \/ _ |- _ => destruct H as [H|H] end;
      try discriminate; try contradiction;
      destruct (Hf dets l r H) as (before & after & ->);
      try (now exists before, after);
      match goal with |- context [?e :: before ++ _] =>
        exists (e :: before), after; reflexivity end.
  - intros y sp dets l r. unfold trace. rewrite seven_execute_run.
    repeat match goal with |- context [if ?b then _ else _] => destruct b end;
      cbn [snd hit_trace In]; intros H;
      repeat match goal with H : _ \/ _ |- _ => destruct H as [H|H] end;
      try discriminate; try contradiction;
      destruct (Hs sp dets l r H) as (before & after & ->);
      try (now exists before, after);
      match goal with |- context [?e :: before ++ _] =>
        exists (e :: before), after; reflexivity end.
Qed.

Lemma steering_command_then_stop_witness :
  exists before after,
    trace (Seven.execute (Seven.mkProbs 0.1 0.1 0.2 0.1 0.3 0.1 0.1) 0.4
             [mkDetection 37 0.9 (mkBBox 0.45 0.45 0.55 0.55)]) tt
    = before
      ++ Motor (SetMotors
                  (0.4 + 0.30 * fst (Seven.detection_center
                                       (mkDetection 37 0.9 (mkBBox 0.45 0.45 0.55 0.55))))
                  (0.4 - 0.30 * fst (Seven.detection_center
                                       (mkDetection 37 0.9 (mkBBox 0.45 0.45 0.55 0.55)))))
         :: Motor Stop :: after.
Proof.
  destruct steering_command_then_stop as [_ Hseven].
  apply (Hseven (Seven.mkProbs 0.1 0.1 0.2 0.1 0.3 0.1 0.1) 0.4
           [mkDetection 37 0.9 (mkBBox 0.45 0.45 0.55 0.55)]).
  do 5 right. left. reflexivity.
Defined.

(** ** Labels *)

Lemma filter_twice {A : Type} (f : A -> bool) (l : list A) :
  filter f (filter f l) = filter f l.
Proof.
  induction l as [|x l IH]; [reflexivity|]. cbn [filter].
  destruct (f x) eqn:E; [|exact IH]. cbn [filter]. now rewrite E, IH.
Qed.

Lemma filter_nil_iff {A : Type} (f : A -> bool) (l : list A) :
  filter f l = [] <-> existsb f l = false.
Proof.
  induction l as [|x l IH]; [now split|]. cbn [filter existsb].
  destruct (f x); cbn [orb]; [split; discriminate | exact IH].
Qed.

Lemma final_target_none_iff (dets : list Detection) :
  final_target dets = None <-> existsb Final.matching dets = false.
Proof.
  unfold final_target, Final.closest_detection.
  rewrite <- filter_nil_iff. split.
  - apply closest_detection_by_none.
  - now intros ->.
Qed.

Lemma seven_target_none_iff (dets : list Detection) :
  seven_target dets = None <-> existsb Seven.matching dets = false.
Proof.
  unfold seven_target, Seven.closest_detection.
  rewrite <- filter_nil_iff. split.
  - apply closest_detection_by_none.
  - now intros ->.
Qed.

(** Detections with another label reach the picture only.  The robot
    commands, pauses, subscription calls, prints and policy state of a call
    are the same on the detector's answer as on that answer stripped of
    the detections whose label is not a target label (37, 53 or 55 in
    final-soccerbot.ipynb, 37 in the seven-class notebook), and so is the
    target, which is one of the detections and carries a target label; the
    boxes of the other detections are drawn all the same, one blue
    rectangle each. *)
Theorem other_labels_reach_the_picture_only :
  (forall st y dets,
     Final.execute y dets st = Final.execute y (filter Final.matching dets) st) /\
  (forall y speed_value dets,
     Seven.execute y speed_value dets tt
     = Seven.execute y speed_value (filter Seven.matching dets) tt) /\
  (forall dets,
     final_target (filter Final.matching dets) = final_target dets /\
     seven_target (filter Seven.matching dets) = seven_target dets) /\
  (forall dets det,
     final_target dets = Some det ->
     In det dets /\ (label det = 37 \/ label det = 53 \/ label det = 55)%Z) /\
  (forall dets det,
     seven_target dets = Some det -> In det dets /\ label det = 37%Z) /\
  (forall dets d,
     In d dets ->
     In (rectangle (bbox d) (255, 0, 0)%Z 2)
        (drawn_rectangles dets (final_target dets)) /\
     In (rectangle (bbox d) (255, 0, 0)%Z 2)
        (drawn_rectangles dets (seven_target dets))).
Proof.
  assert (Hdrawn : forall dets target d,
            In d dets ->
            In (rectangle (bbox d) (255, 0, 0)%Z 2) (drawn_rectangles dets target)).
  { intros dets target d Hd. unfold drawn_rectangles. apply in_or_app. left.
    apply in_map_iff. now exists d. }
  split; [|split; [|split; [|split; [|split]]]].
  - intros st y dets. rewrite !final_execute_run.
    unfold final_detection_status, final_detection_trace, final_target.
    now rewrite filter_twice.
  - intros y sp dets. rewrite !seven_execute_run.
    unfold seven_detection_trace, seven_target. now rewrite filter_twice.
  - intros dets. unfold final_target, seven_target.
    now rewrite !filter_twice.
  - intros dets det H. split; [now apply final_target_In in H|].
    apply final_target_In in H. destruct H as [_ H].
    unfold Final.matching in H. rewrite !orb_true_iff, !Z.eqb_eq in H. tauto.
  - intros dets det H. apply seven_target_In in H. destruct H as [Hin H].
    split; [exact Hin | now apply Z.eqb_eq in H].
  - intros dets d Hd. split; now apply Hdrawn.
Qed.

Lemma other_labels_reach_the_picture_only_witness :
  In (rectangle (mkBBox 0.4 0.4 0.6 0.6) (255, 0, 0)%Z 2)
     (drawn_rectangles
        [mkDetection 1 0.9 (mkBBox 0.4 0.4 0.6 0.6);
         mkDetection 53 0.9 (mkBBox 0.1 0.1 0.3 0.3)]
        (final_target
           [mkDetection 1 0.9 (mkBBox 0.4 0.4 0.6 0.6);
            mkDetection 53 0.9 (mkBBox 0.1 0.1 0.3 0.3)])) /\
  In (mkDetection 53 0.9 (mkBBox 0.1 0.1 0.3 0.3))
     [mkDetection 1 0.9 (mkBBox 0.4 0.4 0.6 0.6);
      mkDetection 53 0.9 (mkBBox 0.1 0.1 0.3 0.3)].
Proof.
  destruct other_labels_reach_the_picture_only
    as (_ & _ & _ & Hfinal & _ & Hdrawn).
  split.
  - apply (Hdrawn [mkDetection 1 0.9 (mkBBox 0.4 0.4 0.6 0.6);
                   mkDetection 53 0.9 (mkBBox 0.1 0.1 0.3 0.3)]
                  (mkDetection 1 0.9 (mkBBox 0.4 0.4 0.6 0.6))).
    now left.
  - apply (Hfinal [mkDetection 1 0.9 (mkBBox 0.4 0.4 0.6 0.6);
                   mkDetection 53 0.9 (mkBBox 0.1 0.1 0.3 0.3)]
                  (mkDetection 53 0.9 (mkBBox 0.1 0.1 0.3 0.3))).
    reflexivity.
Defined.

(** The tracking flag after a call: the approach and the escape branch
    leave the whole state as it was; every other branch sets the flag to 1
    when some detection of the frame carries a target label and to 0 when
    none does. *)
Theorem tracking_flag_follows_detector (st : Final.PolicyState)
  (y : Final.Probs) (dets : list Detection) :
  match first_match final_priority_list FDefault (st, y) with
  | FTracked | FHit => final_state (Final.execute y dets) st = st
  | FScan | FBlocked | FDefault =>
      Final.detstatus (final_state (Final.execute y dets) st)
      = if existsb Final.matching dets then 1%Z else 0%Z
  end.
Proof.
  assert (Hd : final_detection_status dets
               = if existsb Final.matching dets then 1%Z else 0%Z).
  { unfold final_detection_status.
    destruct (final_target dets) eqn:Ht.
    - destruct (existsb Final.matching dets) eqn:E; [reflexivity|].
      apply final_target_none_iff in E. congruence.
    - apply final_target_none_iff in Ht. now rewrite Ht. }
  unfold final_state. rewrite final_execute_run.
  unfold final_priority_list, first_match. cbn [fst snd].
  repeat match goal with |- context [if ?b then _ else _] =>
    lazymatch b with
    | existsb _ _ => fail
    | _ => destruct b
    end end; cbn [fst snd Final.detstatus]; try reflexivity; exact Hd.
Qed.

(** ** Probability vectors *)

(** On an answer of the classifier that is a probability vector the
    thresholds above one half exclude each other, so that below the
    free-space threshold a hit probability above 0.5 alone starts the
    escape manoeuvre and a blocked probability above its threshold alone
    starts the avoiding turn. *)
Theorem probability_vector_decides_branch :
  (forall st y dets,
     final_probabilities y -> Final.prob_free y <= 0.4 ->
     (0.5 < Final.prob_hit y ->
      trace (Final.execute y dets) st = hit_trace) /\
     (0.5 < Final.prob_blocked y ->
      trace (Final.execute y dets) st
      = Motor (Left 0.2) :: trace (Final.detection_stage dets) st)) /\
  (forall y speed_value dets,
     seven_probabilities y -> Seven.prob_free y <= 0.4 ->
     (0.5 < Seven.prob_hit y ->
      trace (Seven.execute y speed_value dets) tt = hit_trace) /\
     (0.6 < Seven.prob_blocked y ->
      trace (Seven.execute y speed_value dets) tt = [Motor (Left 0.2)])).
Proof.
  split.
  - intros st y dets (Hb & Hf & Hh & Hsum) Hfree.
    unfold trace. rewrite final_execute_run, final_detection_stage_run.
    apply Qgtb_false_iff in Hfree. rewrite Hfree. cbn [andb]. split.
    + intros Hhit.
      assert (Hblocked : Qgtb (Final.prob_blocked y) 0.5 = false)
        by (apply Qgtb_false_iff; Lqa.lra).
      apply Qgtb_true_iff in Hhit. now rewrite Hblocked, Hhit.
    + intros Hblocked. apply Qgtb_true_iff in Hblocked. now rewrite Hblocked.
  - intros y sp dets (Hb & Hbl & Hf & Hg & Hh & Hr & Hy & Hsum) Hfree.
    unfold trace. rewrite seven_execute_run.
    apply Qgtb_false_iff in Hfree. rewrite Hfree. split.
    + intros Hhit.
      assert (Hred : Qgtb (Seven.prob_red y) 0.5 = false)
        by (apply Qgtb_false_iff; Lqa.lra).
      assert (Hyellow : Qgtb (Seven.prob_yellow y) 0.5 = false)
        by (apply Qgtb_false_iff; Lqa.lra).
      assert (Hgreen : Qgtb (Seven.prob_green y) 0.5 = false)
        by (apply Qgtb_false_iff; Lqa.lra).
      assert (Hblue : Qgtb (Seven.prob_blue y) 0.5 = false)
        by (apply Qgtb_false_iff; Lqa.lra).
      assert (Hblocked : Qgtb (Seven.prob_blocked y) 0.6 = false)
        by (apply Qgtb_false_iff; Lqa.lra).
      apply Qgtb_true_iff in Hhit.
      now rewrite Hred, Hyellow, Hgreen, Hblue, Hblocked, Hhit.
    + intros Hblocked.
      assert (Hred : Qgtb (Seven.prob_red y) 0.5 = false)
        by (apply Qgtb_false_iff; Lqa.lra).
      assert (Hyellow : Qgtb (Seven.prob_yellow y) 0.5 = false)
        by (apply Qgtb_false_iff; Lqa.lra).
      assert (Hgreen : Qgtb (Seven.prob_green y) 0.5 = false)
        by (apply Qgtb_false_iff; Lqa.lra).
      assert (Hblue : Qgtb (Seven.prob_blue y) 0.5 = false)
        by (apply Qgtb_false_iff; Lqa.lra).
      apply Qgtb_true_iff in Hblocked.
      now rewrite Hred, Hyellow, Hgreen, Hblue, Hblocked.
Qed.

Lemma probability_vector_decides_branch_witness :
  trace (Seven.execute (Seven.mkProbs 0.05 0.05 0.1 0.05 0.65 0.05 0.05) 0.4 [])
        tt
  = hit_trace.
Proof.
  destruct probability_vector_decides_branch as [_ Hseven].
  apply (Hseven (Seven.mkProbs 0.05 0.05 0.1 0.05 0.65 0.05 0.05) 0.4 []).
  - unfold seven_probabilities. cbn. repeat split; discriminate.
  - discriminate.
  - reflexivity.
Defined.

(** ** The norm *)

(** [norm] is a length: it is never negative, it is 0 for the vector
    (0, 0) only, and it does not change when a component changes sign or
    when the components are swapped. *)
Theorem norm_is_a_length (v : Q * Q) :
  (0 <= norm v)%R /\
  (norm v = 0%R <-> same_point v (0, 0)) /\
  norm (- fst v, snd v) = norm v /\
  norm (fst v, - snd v) = norm v /\
  norm (snd v, fst v) = norm v.
Proof.
  assert (Heq : forall a b : Q * Q, norm_sq a == norm_sq b -> norm a = norm b).
  { intros a b H. unfold norm. f_equal. now apply Qeq_eqR. }
  split; [apply sqrt_pos|]. split; [|repeat split].
  - unfold same_point. cbn [fst snd]. split.
    + intros H. apply sqrt_eq_0 in H; [|apply Q2R_norm_sq_nonneg].
      assert (Hz : norm_sq v == 0).
      { apply eqR_Qeq. rewrite H. unfold Q2R. cbn. Lra.lra. }
      rewrite norm_sq_mult in Hz.
      assert (Hxx : 0 <= fst v * fst v) by Lqa.nra.
      assert (Hyy : 0 <= snd v * snd v) by Lqa.nra.
      assert (Hsum : forall a b : Q, 0 <= a -> 0 <= b -> a + b == 0 -> a == 0)
        by (clear; intros a b Ha Hb Hab; apply Qle_antisym; Lqa.lra).
      assert (Hx0 : fst v * fst v == 0) by (eapply Hsum; eassumption).
      assert (Hy0 : snd v * snd v == 0).
      { apply (Hsum _ (fst v * fst v)); try assumption.
        now rewrite Qplus_comm. }
      apply Qmult_integral in Hx0, Hy0. tauto.
    + intros [Hx Hy].
      assert (Hz : norm_sq v == 0) by (rewrite norm_sq_mult, Hx, Hy; reflexivity).
      unfold norm. rewrite (Qeq_eqR _ _ Hz).
      replace (Q2R 0) with 0%R by (unfold Q2R; cbn; Lra.lra). apply sqrt_0.
  - apply Heq. rewrite !norm_sq_mult. cbn [fst snd]. ring.
  - apply Heq. rewrite !norm_sq_mult. cbn [fst snd]. ring.
  - apply Heq. rewrite !norm_sq_mult. cbn [fst snd]. ring.
Qed.

(** ** Where the steering is neutral *)

Lemma steers_center (base gain : Q) (det : Detection) (cx l r : Q) :
  steers base gain det cx l r ->
  (gain = 0.2 /\ base = 0.5 /\ cx = fst (Final.detection_center det)) \/
  (gain = 0.30 /\ cx = fst (Seven.detection_center det)).
Proof.
  intros H. destruct H; [left | right]; auto.
Qed.

(** The direction of a steering command, computed in exact arithmetic.
    The left wheel is the faster one exactly when the horizontal midpoint
    of the target's box lies to the right of the neutral point, and both
    wheels get the same speed exactly when it lies on it; the neutral point
    is x = 0.1 in final-soccerbot.ipynb and x = 0.5, the middle of the
    image, in the seven-class notebook.  (In binary64 a midpoint within
    rounding distance of the neutral point gets equal speeds as well, see
    [neutral_point_in_binary64].) *)
Theorem steering_neutral_point (base gain : Q) (det : Detection)
  (cx l r : Q) :
  steers base gain det cx l r ->
  let neutral := if Qeq_bool gain 0.2 then 0.1 else 0.5 in
  (l == r <-> midpoint_x (bbox det) == neutral) /\
  (r < l <-> neutral < midpoint_x (bbox det)) /\
  (l < r <-> midpoint_x (bbox det) < neutral).
Proof.
  intros H. destruct (steers_linear _ _ _ _ _ _ H) as (_ & Hl & Hr).
  destruct (steers_center _ _ _ _ _ _ H) as [(-> & -> & Hc) | (-> & Hc)];
    cbn zeta; subst l r cx;
    unfold Final.detection_center, Seven.detection_center, detection_center_by,
      midpoint_x; cbn [fst].
  - change (if Qeq_bool 0.2 0.2 then 0.1 else 0.5) with 0.1.
    generalize ((bx1 (bbox det) + bx2 (bbox det)) / 2). clear. intros m.
    repeat split; intros; Lqa.lra.
  - change (if Qeq_bool 0.30 0.2 then 0.1 else 0.5) with 0.5.
    generalize ((bx1 (bbox det) + bx2 (bbox det)) / 2). clear. intros m.
    repeat split; intros; Lqa.lra.
Qed.

Lemma steering_neutral_point_witness :
  exists l r,
    In (Motor (SetMotors l r))
       (trace (Final.execute (Final.mkProbs 0.1 0.1 0.1)
                 [mkDetection 37 0.9 (mkBBox 0.4 0.4 0.6 0.6)])
              Final.initial_state) /\
    r < l.
Proof.
  pose (d := mkDetection 37 0.9 (mkBBox 0.4 0.4 0.6 0.6)).
  pose (cx := fst (Final.detection_center d)).
  assert (Hin : In (Motor (SetMotors (0.5 + 0.2 * cx) (0.5 - 0.2 * cx)))
                  (trace (Final.execute (Final.mkProbs 0.1 0.1 0.1) [d])
                         Final.initial_state)).
  { do 3 right. left. reflexivity. }
  assert (Hs : steers 0.5 0.2 d cx (0.5 + 0.2 * cx) (0.5 - 0.2 * cx)).
  { apply (steers_final Final.initial_state (Final.mkProbs 0.1 0.1 0.1) [d] d);
      [reflexivity | exact Hin]. }
  destruct (steering_neutral_point _ _ _ _ _ _ Hs) as (_ & Hright & _).
  exists (0.5 + 0.2 * cx), (0.5 - 0.2 * cx).
  split; [exact Hin | apply Hright; reflexivity].
Defined.

(** In the seven-class notebook steering is symmetric: for a target and
    its mirror image about the middle of the image, at the same base speed,
    the horizontal centers are opposite, the norms of the centers are equal
    and the two wheel speeds are exchanged. *)
Theorem seven_steering_is_mirror_symmetric (base : Q) (det det' : Detection)
  (cx cx' l r l' r' : Q) :
  mirrored det det' ->
  steers base 0.30 det cx l r ->
  steers base 0.30 det' cx' l' r' ->
  cx' == - cx /\ l' == r /\ r' == l /\
  norm (Seven.detection_center det') = norm (Seven.detection_center det).
Proof.
  intros (H1 & H2 & H3 & H4) Hs Hs'.
  destruct (steers_linear _ _ _ _ _ _ Hs) as (_ & Hl & Hr).
  destruct (steers_linear _ _ _ _ _ _ Hs') as (_ & Hl' & Hr').
  destruct (steers_center _ _ _ _ _ _ Hs) as [(Hg & _) | (_ & Hc)];
    [discriminate|].
  destruct (steers_center _ _ _ _ _ _ Hs') as [(Hg & _) | (_ & Hc')];
    [discriminate|].
  assert (Hcx : cx' == - cx).
  { subst cx cx'. unfold Seven.detection_center, detection_center_by.
    cbn [fst]. rewrite H1, H2. field. }
  repeat split; try assumption.
  - subst l' r. rewrite Hcx. ring.
  - subst r' l. rewrite Hcx. ring.
  - unfold norm. f_equal. apply Qeq_eqR. rewrite !norm_sq_mult.
    unfold Seven.detection_center, detection_center_by. cbn [fst snd].
    rewrite H1, H2, H3, H4. field.
Qed.

Lemma seven_steering_is_mirror_symmetric_witness :
  0.4 + 0.30 * fst (Seven.detection_center
                      (mkDetection 37 0.9 (mkBBox 0.7 0.4 0.9 0.6)))
  == 0.4 - 0.30 * fst (Seven.detection_center
                         (mkDetection 37 0.9 (mkBBox 0.1 0.4 0.3 0.6))).
Proof.
  pose (y := Seven.mkProbs 0.1 0.1 0.2 0.1 0.3 0.1 0.1).
  pose (d := mkDetection 37 0.9 (mkBBox 0.1 0.4 0.3 0.6)).
  pose (d' := mkDetection 37 0.9 (mkBBox 0.7 0.4 0.9 0.6)).
  pose (cx := fst (Seven.detection_center d)).
  pose (cx' := fst (Seven.detection_center d')).
  assert (Hs : steers 0.4 0.30 d cx (0.4 + 0.30 * cx) (0.4 - 0.30 * cx)).
  { apply (steers_seven y 0.4 [d] d); [reflexivity|].
    do 5 right. left. reflexivity. }
  assert (Hs' : steers 0.4 0.30 d' cx' (0.4 + 0.30 * cx') (0.4 - 0.30 * cx')).
  { apply (steers_seven y 0.4 [d'] d'); [reflexivity|].
    do 5 right. left. reflexivity. }
  assert (Hm : mirrored d d') by (repeat split; reflexivity).
  destruct (seven_steering_is_mirror_symmetric _ _ _ _ _ _ _ _ _ Hm Hs Hs')
    as (_ & Hswap & _).
  exact Hswap.
Defined.

(** ** Pixels and rectangles *)

Lemma py_int_floor (x : Q) : 0 <= x -> py_int x = Qfloor x.
Proof.
  destruct x as [n d]. unfold py_int, Qfloor, Qle. cbn. intros H.
  apply Z.quot_div_nonneg; lia.
Qed.

(** On floats that are not negative [int] keeps the order, and it maps the
    interval from 0 to an integer [n] into itself. *)
Lemma py_int_range (x y : Q) (n : Z) :
  0 <= x -> x <= y -> y <= inject_Z n ->
  (0 <= py_int x <= py_int y)%Z /\ (py_int y <= n)%Z.
Proof.
  intros Hx Hxy Hy.
  assert (Hy0 : 0 <= y) by (eapply Qle_trans; eassumption).
  rewrite !py_int_floor by assumption.
  repeat split.
  - change 0%Z with (Qfloor 0). now apply Qfloor_resp_le.
  - now apply Qfloor_resp_le.
  - rewrite <- (Qfloor_Z n). now apply Qfloor_resp_le.
Qed.

Lemma scaled_coordinate_range (n : Z) (a b : Q) :
  (0 <= n)%Z -> 0 <= a -> a <= b -> b <= 1 ->
  0 <= inject_Z n * a /\ inject_Z n * a <= inject_Z n * b /\
  inject_Z n * b <= inject_Z n.
Proof.
  intros Hn Ha Hab Hb.
  assert (Hq : 0 <= inject_Z n) by (unfold Qle; cbn; lia).
  repeat split; Lqa.nra.
Qed.

Lemma rectangle_corners (b : BBox) (col : Z * Z * Z) (thick : Z) :
  bbox_in_unit b ->
  on_image (pt1 (rectangle b col thick)) /\
  on_image (pt2 (rectangle b col thick)) /\
  (bx1 b <= bx2 b ->
   (fst (pt1 (rectangle b col thick)) <= fst (pt2 (rectangle b col thick)))%Z) /\
  (by1 b <= by2 b ->
   (snd (pt1 (rectangle b col thick)) <= snd (pt2 (rectangle b col thick)))%Z).
Proof.
  intros ((Hx1a & Hx1b) & (Hy1a & Hy1b) & (Hx2a & Hx2b) & (Hy2a & Hy2b)).
  assert (Hcoord : forall a, 0 <= a -> a <= 1 ->
            (0 <= py_int (inject_Z 300 * a) <= 300)%Z).
  { intros a Ha0 Ha1.
    destruct (scaled_coordinate_range 300 a a) as (H0 & _ & H1);
      [lia | assumption | apply Qle_refl | assumption |].
    destruct (py_int_range _ _ 300 H0 (Qle_refl _) H1). lia. }
  assert (Hmono : forall a c, 0 <= a -> a <= c -> c <= 1 ->
            (py_int (inject_Z 300 * a) <= py_int (inject_Z 300 * c))%Z).
  { intros a c Ha Hac Hc.
    destruct (scaled_coordinate_range 300 a c) as (H0 & H01 & H1);
      [lia | assumption | assumption | assumption |].
    destruct (py_int_range _ _ 300 H0 H01 H1). lia. }
  unfold on_image, rectangle, width, height. cbn [pt1 pt2 fst snd].
  repeat split; try (apply Hcoord; assumption);
    intros; apply Hmono; assumption.
Qed.

(** A box inside the unit square is drawn inside the image: both corners
    lie within 0..300 on both axes, and the second corner is not to the
    left of or above the first one when the box is given with
    [x1 <= x2] and [y1 <= y2]. *)
Theorem rectangle_inside_image (b : BBox) (col : Z * Z * Z) (thick : Z) :
  bbox_in_unit b ->
  on_image (pt1 (rectangle b col thick)) /\
  on_image (pt2 (rectangle b col thick)) /\
  (bx1 b <= bx2 b ->
   (fst (pt1 (rectangle b col thick)) <= fst (pt2 (rectangle b col thick)))%Z) /\
  (by1 b <= by2 b ->
   (snd (pt1 (rectangle b col thick)) <= snd (pt2 (rectangle b col thick)))%Z).
Proof. apply rectangle_corners. Qed.

Lemma rectangle_inside_image_witness :
  on_image (pt1 (rectangle (mkBBox 0.1 0.2 0.5 0.999) (255, 0, 0)%Z 2)) /\
  on_image (pt2 (rectangle (mkBBox 0.1 0.2 0.5 0.999) (255, 0, 0)%Z 2)).
Proof.
  destruct (rectangle_inside_image (mkBBox 0.1 0.2 0.5 0.999) (255, 0, 0)%Z 2)
    as (H1 & H2 & _).
  - unfold bbox_in_unit. cbn. repeat split; discriminate.
  - split; assumption.
Defined.



(** ** postprocess *)

Section Postprocess.
Variables (img_h img_w : Z) (conf_th : Q).

Lemma nth_error_entry (pre rest : list Q) (e : SsdEntry) (m j : nat) :
  length pre = (7 * m)%nat ->
  nth_error (pre ++ entry_floats e ++ rest) (7 * m + j)
  = nth_error (entry_floats e ++ rest) j.
Proof.
  intros Hpre. rewrite nth_error_app2 by lia. f_equal. lia.
Qed.

(** The loop over the entries of a well-formed part of the array, whatever
    comes before and after that part. *)
Lemma postprocess_entries (es : list SsdEntry) :
  forall (pre suffix : list Q) (m : nat) boxes confs clss,
    length pre = (7 * m)%nat ->
    fold_left
      (postprocess_step img_h img_w (pre ++ flat_output es ++ suffix) conf_th)
      (map (fun k => (OUTPUT_LAYOUT * k)%nat) (seq m (length es)))
      (Some (boxes, confs, clss))
    = Some (boxes ++ map (entry_box img_h img_w) (confident conf_th es),
            confs ++ map e_conf (confident conf_th es),
            clss ++ map entry_class (confident conf_th es)).
Proof.
  unfold OUTPUT_LAYOUT.
  induction es as [|e es IH]; intros pre suffix m boxes confs clss Hpre.
  - cbn. now rewrite !app_nil_r.
  - cbn [length seq map fold_left flat_output flat_map].
    fold (flat_output es). rewrite <- app_assoc.
    unfold postprocess_step at 2.
    rewrite !(nth_error_entry pre _ e m) by assumption.
    cbn [entry_floats app nth_error].
    unfold confident. cbn [filter]. fold (confident conf_th es).
    replace (pre ++ e_index e :: e_cls e :: e_conf e :: e_x1 e :: e_y1 e
                 :: e_x2 e :: e_y2 e :: flat_output es ++ suffix)
      with ((pre ++ entry_floats e) ++ flat_output es ++ suffix)
      by (rewrite <- app_assoc; reflexivity).
    destruct (Qltb (e_conf e) conf_th); cbn [negb].
    + apply IH. rewrite length_app. cbn [entry_floats length]. lia.
    + rewrite IH by (rewrite length_app; cbn [entry_floats length]; lia).
      cbn [map]. now rewrite <- !app_assoc.
Qed.

Lemma layout_range_flat (es : list SsdEntry) (tail : list Q) :
  (length tail < 7)%nat ->
  layout_range (length (flat_output es ++ tail))
  = map (fun k => (OUTPUT_LAYOUT * k)%nat) (seq 0 (length es))
    ++ match tail with [] => [] | _ :: _ => [(OUTPUT_LAYOUT * length es)%nat] end.
Proof.
  intros Htail. unfold layout_range, OUTPUT_LAYOUT.
  assert (Hlen : length (flat_output es) = (7 * length es)%nat).
  { unfold flat_output. induction es as [|e es IH]; [reflexivity|].
    cbn [flat_map]. rewrite length_app, IH. cbn [entry_floats length]. lia. }
  rewrite length_app, Hlen.
  replace (7 * length es + length tail + (7 - 1))%nat
    with (length es * 7 + (length tail + 6))%nat by lia.
  rewrite Nat.div_add_l by discriminate.
  destruct tail as [|t0 tail].
  - cbn [length]. change ((0 + 6) / 7)%nat with 0%nat.
    now rewrite Nat.add_0_r, app_nil_r.
  - assert (Hone : ((length (t0 :: tail) + 6) / 7 = 1)%nat).
    { cbn [length] in *. 
      replace (S (length tail) + 6)%nat with (1 * 7 + length tail)%nat by lia.
      rewrite Nat.div_add_l by discriminate.
      rewrite Nat.div_small by lia. reflexivity. }
    rewrite Hone, seq_app, map_app. reflexivity.
Qed.

Lemma postprocess_flat_output (es : list SsdEntry) :
  postprocess img_h img_w (flat_output es) conf_th
  = Some (parsed_entries img_h img_w conf_th es).
Proof.
  unfold postprocess.
  rewrite <- (app_nil_r (flat_output es)) at 2.
  rewrite layout_range_flat by (cbn; lia). rewrite app_nil_r.
  pose proof (postprocess_entries es [] [] 0 [] [] [] eq_refl) as H.
  cbn [app] in H. rewrite app_nil_r in H. exact H.
Qed.

(** Entries with normalised coordinates give boxes on the image: every box
    [postprocess] returns for them has its four pixel coordinates between 0
    and the width, respectively the height, of the image. *)
Theorem postprocess_boxes_on_image (es : list SsdEntry)
  (boxes : list (Z * Z * Z * Z)) (confs : list Q) (clss : list Z) :
  (0 <= img_h)%Z -> (0 <= img_w)%Z ->
  Forall entry_in_unit es ->
  postprocess img_h img_w (flat_output es) conf_th = Some (boxes, confs, clss) ->
  Forall (box_on_image img_h img_w) boxes.
Proof.
  intros Hh Hw Hunit Hpost. rewrite postprocess_flat_output in Hpost.
  injection Hpost as <- _ _.
  assert (Hcoord : forall n a, (0 <= n)%Z -> 0 <= a <= 1 ->
            (0 <= py_int (a * inject_Z n) <= n)%Z).
  { intros n a Hn [Ha0 Ha1].
    assert (Hq : 0 <= inject_Z n) by (unfold Qle; cbn; lia).
    assert (H0 : 0 <= a * inject_Z n) by Lqa.nra.
    assert (H1 : a * inject_Z n <= inject_Z n) by Lqa.nra.
    destruct (py_int_range _ _ n H0 (Qle_refl _) H1). lia. }
  apply Forall_forall. intros box Hbox.
  apply in_map_iff in Hbox. destruct Hbox as (e & <- & He).
  apply filter_In in He. destruct He as [He _].
  rewrite Forall_forall in Hunit.
  destruct (Hunit e He) as (Hx1 & Hy1 & Hx2 & Hy2).
  unfold entry_box, box_on_image. repeat split; now apply Hcoord.
Qed.

End Postprocess.

Lemma postprocess_boxes_on_image_witness :
  Forall (box_on_image 300 300) [(30, 60, 150, 180)%Z].
Proof.
  apply (postprocess_boxes_on_image 300 300 0.3
           [mkEntry 0 37 0.9 0.1 0.2 0.5 0.6; mkEntry 0 1 0.2 0 0 1 1]
           [(30, 60, 150, 180)%Z] [0.9] [37%Z]).
  - discriminate.
  - discriminate.
  - repeat constructor; cbn; discriminate.
  - reflexivity.
Defined.

(** ** Pauses *)

(** How long a call blocks.  A call sleeps for 0, 3 or 4 seconds in
    final-soccerbot.ipynb and for 0, 2.5 or 4 seconds in the seven-class
    notebook: 4 for the escape manoeuvre, 3 respectively 2.5 when it steers
    to a target, and not at all otherwise. *)
Theorem call_sleeps_by_branch :
  (forall st y dets,
     total_sleep (trace (Final.execute y dets) st)
     == match first_match final_priority_list FDefault (st, y) with
        | FHit => 4
        | FTracked => 0
        | FScan | FBlocked | FDefault =>
            match final_target dets with Some _ => 3 | None => 0 end
        end) /\
  (forall y speed_value dets,
     total_sleep (trace (Seven.execute y speed_value dets) tt)
     == match first_match seven_priority_list SDefault y with
        | SHit => 4
        | SColor | SBlocked => 0
        | SFree | SDefault =>
            match seven_target dets with Some _ => 2.5 | None => 0 end
        end).
Proof.
  split.
  - intros st y dets. unfold trace. rewrite final_execute_run.
    unfold final_priority_list, first_match, final_detection_trace. cbn [fst snd].
    repeat match goal with |- context [if ?b then _ else _] => destruct b end;
      cbn [snd]; destruct (final_target dets); reflexivity.
  - intros y sp dets. unfold trace. rewrite seven_execute_run.
    unfold seven_priority_list, first_match, seven_detection_trace.
    repeat match goal with |- context [if ?b then _ else _] => destruct b end;
      cbn [snd]; destruct (seven_target dets); reflexivity.
Qed.

(** Pauses and the subscription.  In the seven-class notebook every pause
    of every call is made while [execute] is detached from the camera.  In
    final-soccerbot.ipynb this fails exactly for the calls that steer: the
    one-second pause after [set_motors] is made before
    [camera.unobserve_all()]. *)
Theorem pauses_and_subscription :
  (forall y speed_value dets,
     sleeps_while_detached true (trace (Seven.execute y speed_value dets) tt)
     = true) /\
  (forall st y dets,
     sleeps_while_detached true (trace (Final.execute y dets) st) = false
     <-> exists l r,
           In (Motor (SetMotors l r)) (trace (Final.execute y dets) st)).
Proof.
  split.
  - intros y sp dets. unfold trace. rewrite seven_execute_run.
    unfold seven_detection_trace.
    repeat match goal with |- context [if ?b then _ else _] => destruct b end;
      cbn [snd]; destruct (seven_target dets); reflexivity.
  - intros st y dets.
    assert (Hd : sleeps_while_detached true (final_detection_trace dets) = false
                 <-> exists l r,
                       In (Motor (SetMotors l r)) (final_detection_trace dets)).
    { unfold final_detection_trace. destruct (final_target dets) as [det|].
      - split; [|reflexivity]. intros _. eexists. eexists.
        do 3 right. left. reflexivity.
      - split; [discriminate|]. intros (l & r & [H|[H|[]]]); discriminate. }
    unfold trace. rewrite final_execute_run.
    repeat match goal with |- context [if ?b then _ else _] => destruct b end;
      cbn [snd].
    + split.
      * intros H. apply Hd in H. destruct H as (l & r & H).
        exists l, r. now right.
      * intros (l & r & [H|H]); [discriminate|]. apply Hd. now exists l, r.
    + split.
      * intros H. apply Hd in H. destruct H as (l & r & H).
        exists l, r. now right.
      * intros (l & r & [H|H]); [discriminate|]. apply Hd. now exists l, r.
    + split; [discriminate|]. intros (l & r & [H|[]]). discriminate.
    + split.
      * intros H. apply Hd in H. destruct H as (l & r & H).
        exists l, r. now right.
      * intros (l & r & [H|H]); [discriminate|]. apply Hd. now exists l, r.
    + split; [discriminate|]. intros (l & r & H). cbn [hit_trace In] in H.
      repeat match goal with H : _ \/ _ |- _ => destruct H as [H|H] end;
        try discriminate; contradiction.
    + exact Hd.
Qed.

(** ** postprocess on floats that need not be finite *)

Section PostprocessPy.
Variables (img_h img_w : Z) (conf_th : Q).

Lemma output_at_entry (pre rest : list PyFloat) (m j : nat) :
  length pre = (7 * m)%nat ->
  output_at (pre ++ rest) (7 * m + j) = output_at rest j.
Proof.
  intros Hpre. unfold output_at. rewrite nth_error_app2 by lia.
  replace (7 * m + j - length pre)%nat with j by lia. reflexivity.
Qed.

(** The loop over a part of the array that holds complete entries of
    finite floats, whatever comes before and after that part. *)
Lemma postprocess_py_entries (es : list SsdEntry) :
  forall (pre suffix : list PyFloat) (m : nat) boxes confs clss,
    length pre = (7 * m)%nat ->
    fold_left
      (postprocess_py_step img_h img_w
         (pre ++ map Finite (flat_output es) ++ suffix) conf_th)
      (map (fun k => (OUTPUT_LAYOUT * k)%nat) (seq m (length es)))
      (Returned (boxes, confs, clss))
    = Returned
        (boxes ++ map (entry_box img_h img_w) (confident conf_th es),
         confs ++ map Finite (map e_conf (confident conf_th es)),
         clss ++ map entry_class (confident conf_th es)).
Proof.
  unfold OUTPUT_LAYOUT.
  induction es as [|e es IH]; intros pre suffix m boxes confs clss Hpre.
  - cbn. now rewrite !app_nil_r.
  - cbn [length seq map fold_left flat_output flat_map].
    fold (flat_output es).
    unfold postprocess_py_step at 2. cbn [outcome_bind].
    rewrite !(output_at_entry pre _ m) by assumption.
    rewrite map_app. cbn [entry_floats map app output_at nth_error outcome_bind
                            pyfloat_ltb pyfloat_mul_int pyfloat_int].
    unfold confident. cbn [filter]. fold (confident conf_th es).
    replace (pre ++ Finite (e_index e) :: Finite (e_cls e) :: Finite (e_conf e)
                 :: Finite (e_x1 e) :: Finite (e_y1 e) :: Finite (e_x2 e)
                 :: Finite (e_y2 e) :: map Finite (flat_output es) ++ suffix)
      with ((pre ++ map Finite (entry_floats e))
              ++ map Finite (flat_output es) ++ suffix)
      by (rewrite <- app_assoc; reflexivity).
    destruct (Qltb (e_conf e) conf_th); cbn [negb].
    + apply IH. rewrite length_app, length_map. cbn [entry_floats length]. lia.
    + rewrite IH
        by (rewrite length_app, length_map; cbn [entry_floats length]; lia).
      cbn [map]. now rewrite <- !app_assoc.
Qed.

Lemma flat_output_length (es : list SsdEntry) :
  length (flat_output es) = (7 * length es)%nat.
Proof.
  unfold flat_output. induction es as [|e es IH]; [reflexivity|].
  cbn [flat_map]. rewrite length_app, IH. cbn [entry_floats length]. lia.
Qed.

Lemma layout_range_entries (n t : nat) :
  (t < 7)%nat ->
  layout_range (7 * n + t)
  = map (fun k => (OUTPUT_LAYOUT * k)%nat) (seq 0 n)
    ++ match t with O => [] | S _ => [(OUTPUT_LAYOUT * n)%nat] end.
Proof.
  intros Ht. unfold layout_range, OUTPUT_LAYOUT.
  replace (7 * n + t + (7 - 1))%nat with (n * 7 + (t + 6))%nat by lia.
  rewrite Nat.div_add_l by discriminate.
  destruct t as [|t].
  - change ((0 + 6) / 7)%nat with 0%nat. now rewrite Nat.add_0_r, app_nil_r.
  - replace (S t + 6)%nat with (1 * 7 + t)%nat by lia.
    rewrite Nat.div_add_l by discriminate.
    rewrite (Nat.div_small t 7) by lia.
    now rewrite seq_app, map_app.
Qed.

(** Decoding.  On an array of finite floats that holds a list of entries
    one after the other, [postprocess] raises nothing and returns, in the
    order of the array, the pixel boxes, the confidences and the classes of
    exactly the entries whose confidence is not below the threshold; on the
    empty array it returns three empty lists. *)
Theorem postprocess_decodes_finite_entries (es : list SsdEntry) :
  postprocess_py img_h img_w (map Finite (flat_output es)) conf_th
  = Returned (parsed_py (parsed_entries img_h img_w conf_th es)) /\
  postprocess_py img_h img_w [] conf_th = Returned ([], [], []).
Proof.
  split; [|reflexivity]. unfold postprocess_py.
  rewrite length_map, flat_output_length.
  rewrite <- (Nat.add_0_r (7 * length es)).
  rewrite layout_range_entries by lia. rewrite app_nil_r.
  pose proof (postprocess_py_entries es [] [] 0 [] [] [] eq_refl) as H.
  cbn [app] in H. rewrite app_nil_r in H. exact H.
Qed.

(** An array cut short.  When a started entry of fewer than seven floats,
    finite or not, follows complete entries of finite floats: the call
    raises [IndexError] if the started entry holds no confidence; it
    returns the result of the complete entries, the cut unnoticed, if its
    confidence compares below the threshold; otherwise it raises, and what
    it raises is [IndexError] when the floats of the started entry are
    finite. *)
Theorem postprocess_on_started_entry (es : list SsdEntry)
  (tail : list PyFloat) :
  tail <> [] -> (length tail < 7)%nat ->
  match nth_error tail 2 with
  | None =>
      postprocess_py img_h img_w (map Finite (flat_output es) ++ tail) conf_th
      = Raised IndexError
  | Some conf =>
      if pyfloat_ltb conf conf_th then
        postprocess_py img_h img_w (map Finite (flat_output es) ++ tail) conf_th
        = Returned (parsed_py (parsed_entries img_h img_w conf_th es))
      else
        (exists e,
           postprocess_py img_h img_w (map Finite (flat_output es) ++ tail)
                          conf_th = Raised e) /\
        (Forall is_finite tail ->
         postprocess_py img_h img_w (map Finite (flat_output es) ++ tail)
                        conf_th = Raised IndexError)
  end.
Proof.
  intros Hne Hlen. unfold postprocess_py.
  rewrite length_app, length_map, flat_output_length.
  rewrite layout_range_entries by assumption.
  destruct tail as [|t0 tail']; [congruence|].
  cbn [length]. set (tail := t0 :: tail') in *. rewrite fold_left_app.
  pose proof (postprocess_py_entries es [] tail 0 [] [] [] eq_refl) as H.
  cbn [app] in H. rewrite H. clear H. cbn [fold_left app].
  assert (Hat : forall j,
            output_at (map Finite (flat_output es) ++ tail)
                      (OUTPUT_LAYOUT * length es + j)
            = output_at tail j).
  { intros j. apply output_at_entry.
    now rewrite length_map, flat_output_length. }
  unfold postprocess_py_step. cbn [outcome_bind]. rewrite !Hat.
  assert (H6 : output_at tail 6 = Raised IndexError).
  { unfold output_at. now rewrite (proj2 (nth_error_None tail 6)) by lia. }
  rewrite H6. unfold output_at.
  destruct (nth_error tail 2) as [conf|]; [|reflexivity]. cbn [outcome_bind].
  destruct (pyfloat_ltb conf conf_th); [reflexivity|].
  assert (Hfin : forall j x, nth_error tail j = Some x ->
                 Forall is_finite tail -> is_finite x).
  { intros j x Hj Hall. rewrite Forall_forall in Hall.
    eapply Hall, nth_error_In, Hj. }
  destruct (nth_error tail 3) as [o3|] eqn:E3; cbn [outcome_bind];
    [|split; [eexists|]; reflexivity].
  destruct o3; cbn [pyfloat_mul_int pyfloat_int outcome_bind];
    try (split; [repeat match goal with
                        | |- context [if ?b then _ else _] => destruct b
                        end; cbn [pyfloat_int outcome_bind]; eexists; reflexivity
                | intros Hall; destruct (Hfin _ _ E3 Hall)]).
  destruct (nth_error tail 4) as [o4|] eqn:E4; cbn [outcome_bind];
    [|split; [eexists|]; reflexivity].
  destruct o4; cbn [pyfloat_mul_int pyfloat_int outcome_bind];
    try (split; [repeat match goal with
                        | |- context [if ?b then _ else _] => destruct b
                        end; cbn [pyfloat_int outcome_bind]; eexists; reflexivity
                | intros Hall; destruct (Hfin _ _ E4 Hall)]).
  destruct (nth_error tail 5) as [o5|] eqn:E5; cbn [outcome_bind];
    [|split; [eexists|]; reflexivity].
  destruct o5; cbn [pyfloat_mul_int pyfloat_int outcome_bind];
    try (split; [repeat match goal with
                        | |- context [if ?b then _ else _] => destruct b
                        end; cbn [pyfloat_int outcome_bind]; eexists; reflexivity
                | intros Hall; destruct (Hfin _ _ E5 Hall)]).
  reflexivity.
Qed.

Lemma postprocess_py_step_raised (output : list PyFloat)
  (prefixes : list nat) (e : PyError) :
  fold_left (postprocess_py_step img_h img_w output conf_th) prefixes (Raised e)
  = Raised e.
Proof. induction prefixes; [reflexivity | assumption]. Qed.

(** Whenever [postprocess] returns, on any array of floats, the three
    lists have the same length and no confidence it returns compares below
    the threshold; a NaN confidence, which compares below nothing, is
    among those it returns. *)
Theorem postprocess_returns_parallel_lists (output : list PyFloat)
  (boxes : list (Z * Z * Z * Z)) (confs : list PyFloat) (clss : list Z) :
  postprocess_py img_h img_w output conf_th = Returned (boxes, confs, clss) ->
  length boxes = length confs /\ length confs = length clss /\
  Forall (fun conf => pyfloat_ltb conf conf_th = false) confs.
Proof.
  unfold postprocess_py.
  set (ok := fun acc : ParsedPy =>
               let '(bs, cs, ks) := acc in
               length bs = length cs /\ length cs = length ks /\
               Forall (fun conf => pyfloat_ltb conf conf_th = false) cs).
  assert (Hfold : forall prefixes acc res,
            ok acc ->
            fold_left (postprocess_py_step img_h img_w output conf_th) prefixes
                      (Returned acc) = Returned res ->
            ok res).
  { induction prefixes as [|p prefixes IH]; intros acc res Hacc Hres.
    - cbn in Hres. now injection Hres as <-.
    - cbn [fold_left] in Hres.
      destruct (postprocess_py_step img_h img_w output conf_th (Returned acc) p)
        as [acc'|e] eqn:Hstep;
        [|rewrite postprocess_py_step_raised in Hres; discriminate].
      apply (IH acc' res); [|exact Hres].
      destruct acc as [[bs cs] ks].
      unfold postprocess_py_step in Hstep. cbn [outcome_bind] in Hstep.
      destruct (output_at output (p + 2)) as [conf|]; [|discriminate].
      cbn [outcome_bind] in Hstep.
      destruct (pyfloat_ltb conf conf_th) eqn:Hconf.
      + now injection Hstep as <-.
      + repeat match type of Hstep with
               | context [outcome_bind ?m _] =>
                   destruct m; cbn [outcome_bind] in Hstep; [|discriminate]
               end.
        injection Hstep as <-. destruct Hacc as (H1 & H2 & H3).
        cbn. rewrite !length_app. cbn [length].
        repeat split; try lia.
        apply Forall_app. split; [assumption|].
        constructor; [assumption | constructor]. }
  intros H.
  apply (Hfold (layout_range (length output)) ([], [], []) (boxes, confs, clss));
    [|exact H].
  cbn. repeat split. constructor.
Qed.

End PostprocessPy.

Lemma postprocess_on_started_entry_witness :
  postprocess_py 300 300
    (map Finite (flat_output [mkEntry 0 37 0.9 0.1 0.2 0.5 0.6])
     ++ [Finite 0; Finite 1; Finite 0.1]) 0.3
  = Returned ([(30, 60, 150, 180)%Z], [Finite 0.9], [37%Z]).
Proof.
  apply (postprocess_on_started_entry 300 300 0.3
           [mkEntry 0 37 0.9 0.1 0.2 0.5 0.6]
           [Finite 0; Finite 1; Finite 0.1]).
  - discriminate.
  - cbn. lia.
Defined.

Lemma postprocess_returns_parallel_lists_witness :
  length [(150, 0, 0, 0)%Z] = length [NaN] /\
  length [NaN] = length [1%Z] /\
  Forall (fun conf => pyfloat_ltb conf 0.3 = false) [NaN].
Proof.
  apply (postprocess_returns_parallel_lists 300 300 0.3
           [Finite 0; Finite 1; NaN; Finite 0.5; Finite 0; Finite 0; Finite 0]).
  reflexivity.
Defined.

(** ** The order of the floats *)

Lemma SFltb_key (a b : SpecFloat.spec_float) :
  a <> SpecFloat.S754_nan -> b <> SpecFloat.S754_nan ->
  SpecFloat.SFltb a b = true <-> lex_lt (sf_key a) (sf_key b).
Proof.
  intros Ha Hb. unfold SpecFloat.SFltb, SpecFloat.SFcompare, lex_lt.
  destruct a as [sa|sa| |sa ma ea], b as [sb|sb| |sb mb eb];
    try congruence;
    try destruct sa; try destruct sb; cbn [sf_key];
    try (split; [discriminate | lia]);
    try (split; [lia | reflexivity]).
  - destruct (Z.compare_spec ea eb);
      try (split; [intros _; lia | reflexivity]);
      try (split; [discriminate | lia]).
    subst. rewrite Pos.compare_cont_spec. cbn [Pos.switch_Eq].
    destruct (Pos.compare_spec ma mb); cbn; split;
      try discriminate; try reflexivity; try lia.
  - destruct (Z.compare_spec ea eb);
      try (split; [intros _; lia | reflexivity]);
      try (split; [discriminate | lia]).
    subst. rewrite Pos.compare_cont_spec. cbn [Pos.switch_Eq].
    destruct (Pos.compare_spec ma mb); cbn; split;
      try discriminate; try reflexivity; try lia.
Qed.

Lemma Prim2SF_not_nan (x : PrimFloat.float) :
  PrimFloat.is_nan x = false -> FloatOps.Prim2SF x <> SpecFloat.S754_nan.
Proof.
  intros H. unfold FloatOps.Prim2SF. rewrite H.
  destruct (PrimFloat.is_zero x); [discriminate|].
  destruct (PrimFloat.is_infinity x); [discriminate|].
  destruct (FloatOps.Z.frexp x) as [r e].
  destruct (SpecFloat.shr_fexp _ _ _ _ _) as [shr e'].
  destruct (SpecFloat.shr_m shr); discriminate.
Qed.

Lemma f64_ltb_key (x y : PrimFloat.float) :
  PrimFloat.is_nan x = false -> PrimFloat.is_nan y = false ->
  PrimFloat.ltb x y = true
  <-> lex_lt (sf_key (FloatOps.Prim2SF x)) (sf_key (FloatOps.Prim2SF y)).
Proof.
  intros Hx Hy. rewrite FloatAxioms.ltb_spec.
  apply SFltb_key; now apply Prim2SF_not_nan.
Qed.

Lemma f64_ltb_irrefl (x : PrimFloat.float) : PrimFloat.ltb x x = false.
Proof.
  destruct (PrimFloat.is_nan x) eqn:Hx.
  - rewrite FloatAxioms.ltb_spec. unfold FloatOps.Prim2SF. now rewrite Hx.
  - apply not_true_is_false. rewrite (f64_ltb_key x x Hx Hx).
    unfold lex_lt. destruct (sf_key _) as [[a b] c]. lia.
Qed.

Lemma f64_ltb_trans (x y z : PrimFloat.float) :
  PrimFloat.is_nan x = false -> PrimFloat.is_nan y = false ->
  PrimFloat.is_nan z = false ->
  PrimFloat.ltb x y = true -> PrimFloat.ltb y z = true ->
  PrimFloat.ltb x z = true.
Proof.
  intros Hx Hy Hz. rewrite !f64_ltb_key by assumption. unfold lex_lt.
  destruct (sf_key (FloatOps.Prim2SF x)) as [[a1 a2] a3].
  destruct (sf_key (FloatOps.Prim2SF y)) as [[b1 b2] b3].
  destruct (sf_key (FloatOps.Prim2SF z)) as [[c1 c2] c3]. lia.
Qed.

Lemma f64_ltb_neg_trans (x y z : PrimFloat.float) :
  PrimFloat.is_nan x = false -> PrimFloat.is_nan y = false ->
  PrimFloat.is_nan z = false ->
  PrimFloat.ltb x y = false -> PrimFloat.ltb y z = false ->
  PrimFloat.ltb x z = false.
Proof.
  intros Hx Hy Hz. rewrite <- !not_true_iff_false.
  rewrite !f64_ltb_key by assumption. unfold lex_lt.
  destruct (sf_key (FloatOps.Prim2SF x)) as [[a1 a2] a3].
  destruct (sf_key (FloatOps.Prim2SF y)) as [[b1 b2] b3].
  destruct (sf_key (FloatOps.Prim2SF z)) as [[c1 c2] c3]. lia.
Qed.

(** ** The loop that keeps the first least element *)

Section KeepLeast.
Context {A T : Type}.
Variables (score : A -> T) (lt : T -> T -> bool) (ok : T -> Prop).
Hypothesis lt_irrefl : forall a, lt a a = false.
Hypothesis lt_trans :
  forall a b c, ok a -> ok b -> ok c ->
    lt a b = true -> lt b c = true -> lt a c = true.
Hypothesis lt_neg_trans :
  forall a b c, ok a -> ok b -> ok c ->
    lt a b = false -> lt b c = false -> lt a c = false.

Let keep (best : option A) (x : A) : option A :=
  match best with
  | None => Some x
  | Some c => if lt (score x) (score c) then Some x else Some c
  end.

Lemma keep_least_first_least (l : list A) :
  l <> [] -> Forall (fun x => ok (score x)) l ->
  exists i d, fold_left keep l None = Some d /\ first_least score lt l i d.
Proof.
  induction l as [|x l IH] using rev_ind; [congruence|]. intros _ Hall.
  apply Forall_app in Hall. destruct Hall as [Hl Hx].
  inversion Hx as [|x' l' Hokx _]; subst.
  rewrite fold_left_app. cbn [fold_left].
  destruct l as [|y l0].
  - exists 0%nat, x. split; [reflexivity|]. repeat split.
    + intros [|[|j]] d' Hj; cbn in Hj; try discriminate.
      injection Hj as <-. apply lt_irrefl.
    + intros j d' Hj. lia.
  - destruct IH as (i & d & Hd & Hi & Hmin & Hfirst); [discriminate | assumption |].
    set (l := y :: l0) in *. rewrite Hd. unfold keep.
    assert (Hokd : ok (score d)).
    { rewrite Forall_forall in Hl. eapply Hl, nth_error_In, Hi. }
    assert (Hok : forall j d', nth_error l j = Some d' -> ok (score d')).
    { intros j d' Hj. rewrite Forall_forall in Hl. eapply Hl, nth_error_In, Hj. }
    destruct (lt (score x) (score d)) eqn:E.
    + assert (Hbelow : forall j d', (j < length l)%nat ->
                nth_error (l ++ [x]) j = Some d' ->
                lt (score x) (score d') = true).
      { intros j d' Hj Hn. rewrite nth_error_app1 in Hn by assumption.
        destruct (lt (score x) (score d')) eqn:E'; [reflexivity|].
        rewrite (lt_neg_trans (score x) (score d') (score d)) in E;
          eauto; discriminate. }
      exists (length l), x. split; [reflexivity|]. repeat split.
      * rewrite nth_error_app2, Nat.sub_diag by lia. reflexivity.
      * intros j d' Hn. destruct (Nat.lt_ge_cases j (length l)) as [Hj|Hj].
        -- destruct (lt (score d') (score x)) eqn:E'; [|reflexivity].
           assert (Hokd' : ok (score d')).
           { rewrite nth_error_app1 in Hn by assumption. eauto. }
           rewrite <- (lt_irrefl (score x)). symmetry.
           apply (lt_trans _ (score d')); auto. now apply (Hbelow j).
        -- rewrite nth_error_app2 in Hn by assumption.
           destruct (j - length l)%nat as [|[|k]]; cbn in Hn; try discriminate.
           injection Hn as <-. apply lt_irrefl.
      * exact Hbelow.
    + assert (Hil : (i < length l)%nat).
      { apply nth_error_Some. rewrite Hi. discriminate. }
      exists i, d. split; [reflexivity|]. repeat split.
      * rewrite nth_error_app1 by assumption. exact Hi.
      * intros j d' Hn. destruct (Nat.lt_ge_cases j (length l)) as [Hj|Hj].
        -- rewrite nth_error_app1 in Hn by assumption. now apply (Hmin j).
        -- rewrite nth_error_app2 in Hn by assumption.
           destruct (j - length l)%nat as [|[|k]]; cbn in Hn; try discriminate.
           now injection Hn as <-.
      * intros j d' Hj Hn. rewrite nth_error_app1 in Hn by lia.
        now apply (Hfirst j).
Qed.

End KeepLeast.

Lemma norm_is_euclidean (v : Q * Q) : norm v = euclidean_norm v.
Proof.
  unfold norm, euclidean_norm. f_equal.
  rewrite (Qeq_eqR _ _ (norm_sq_mult v)), Q2R_plus, !Q2R_mult. reflexivity.
Qed.

Lemma first_closest_nearest_center (l : list Detection) (i : nat)
  (d : Detection) :
  first_closest 0.5 l i d -> first_nearest_center l i d.
Proof.
  intros (Hi & Hmin & Hfirst). repeat split; [exact Hi | |].
  - intros j d' Hj. rewrite <- !norm_is_euclidean. exact (Hmin j d' Hj).
  - intros j d' Hlt Hj. rewrite <- !norm_is_euclidean. exact (Hfirst j d' Hlt Hj).
Qed.

(** C4, as the code has it (seven-class notebook, whose [detection_center]
    is the center offset).  In binary64: on a non-empty list none of whose
    computed norms is NaN, [closest_detection] returns the first element
    whose computed norm of the center offset is least, that is, no element
    has a smaller computed norm and every earlier element has a larger
    one.  In exact arithmetic: on a non-empty list it returns the first
    element whose center offset has the least Euclidean norm. *)
Theorem closest_detection_first_least_norm :
  (forall l : list F64.FDetection,
     l <> [] ->
     Forall (fun d => PrimFloat.is_nan (F64Words.computed_offset_norm d) = false) l ->
     exists i d,
       F64.closest_detection l = Some d /\
       first_least F64Words.computed_offset_norm PrimFloat.ltb l i d) /\
  (forall l : list Detection,
     l <> [] ->
     exists i d,
       Seven.closest_detection l = Some d /\ first_nearest_center l i d).
Proof.
  split.
  - intros l Hne Hnan.
    apply (keep_least_first_least F64Words.computed_offset_norm PrimFloat.ltb
             (fun x => PrimFloat.is_nan x = false)
             f64_ltb_irrefl f64_ltb_trans f64_ltb_neg_trans l Hne Hnan).
  - intros l Hne.
    destruct (closest_detection_by_first_closest 0.5 l Hne) as (i & d & Hd & Hfc).
    exists i, d. split; [exact Hd | now apply first_closest_nearest_center].
Qed.

Lemma closest_detection_first_least_norm_witness :
  exists i d,
    F64.closest_detection [F64Words.tall_box; F64Words.point_box] = Some d /\
    first_least F64Words.computed_offset_norm PrimFloat.ltb
      [F64Words.tall_box; F64Words.point_box] i d.
Proof.
  destruct closest_detection_first_least_norm as [Hfloat _].
  apply (Hfloat [F64Words.tall_box; F64Words.point_box]).
  - discriminate.
  - repeat constructor.
Defined.

(** C4 fails as worded: the center offset of the second box is (0.5, 0),
    of norm 0.5, that of the first is (0.5, 2^-27), of a larger norm; both
    norms are computed as 0.5, and the first box is returned although the
    second is strictly nearer to the center. *)
Lemma near_tie_returns_the_farther_box :
  F64.closest_detection [F64Words.tall_box; F64Words.point_box]
  = Some F64Words.tall_box /\
  F64Words.computed_offset_norm F64Words.tall_box
  = F64Words.computed_offset_norm F64Words.point_box /\
  exists qtall qpoint,
    exact_detection F64Words.tall_box = Some qtall /\
    exact_detection F64Words.point_box = Some qpoint /\
    (euclidean_norm (spec_center_offset qpoint)
     < euclidean_norm (spec_center_offset qtall))%R /\
    Seven.closest_detection [qtall; qpoint] = Some qpoint.
Proof.
  split; [reflexivity|]. split; [reflexivity|].
  eexists. eexists.
  split; [vm_compute; reflexivity|]. split; [vm_compute; reflexivity|].
  split; [|reflexivity].
  rewrite <- !norm_is_euclidean.
  apply (norm_lt_spec (spec_center_offset _) (spec_center_offset _)).
  reflexivity.
Qed.

(** ** Steering, by the position of the target *)

(** C6, as the code has it, computed in exact arithmetic.  The steering
    command is linear in the horizontal position of the target with the
    positive gain of the notebook (0.2 or 0.30): between two targets, at
    the same base speed, the left speed differs by the gain times the
    difference of the horizontal midpoints and the right speed by the
    opposite, so a target further right gets a strictly larger left speed
    and a strictly smaller right speed.  In the seven-class notebook the
    speeds are [base + gain * center_x] and [base - gain * center_x] for
    the center offset of the target, both equal to the base speed at
    [center_x = 0], and strictly monotone in [center_x]. *)
Theorem steering_linear_in_position (base gain : Q) (det : Detection)
  (cx l r : Q) :
  steers base gain det cx l r ->
  0 < gain /\
  (forall det' cx' l' r',
     steers base gain det' cx' l' r' ->
     l' - l == gain * (midpoint_x (bbox det') - midpoint_x (bbox det)) /\
     r' - r == - (gain * (midpoint_x (bbox det') - midpoint_x (bbox det))) /\
     (midpoint_x (bbox det) < midpoint_x (bbox det') -> l < l' /\ r' < r)) /\
  (gain = 0.30 ->
   l == base + gain * fst (spec_center_offset det) /\
   r == base - gain * fst (spec_center_offset det) /\
   (fst (spec_center_offset det) == 0 -> l == base /\ r == base) /\
   (forall det' cx' l' r',
      steers base gain det' cx' l' r' ->
      fst (spec_center_offset det) < fst (spec_center_offset det') ->
      l < l' /\ r' < r)).
Proof.
  intros H. destruct (steers_linear _ _ _ _ _ _ H) as (Hg & Hl & Hr).
  assert (Hpos : 0 < gain) by (destruct Hg as [-> | ->]; reflexivity).
  assert (Hcx : forall d c l0 r0, steers base gain d c l0 r0 ->
            exists shift, (shift = 0.1 \/ shift = 0.5) /\
              (gain = 0.30 -> shift = 0.5) /\ (gain = 0.2 -> shift = 0.1) /\
              l0 = base + gain * (midpoint_x (bbox d) - shift) /\
              r0 = base - gain * (midpoint_x (bbox d) - shift)).
  { intros d c l0 r0 Hs.
    destruct (steers_linear _ _ _ _ _ _ Hs) as (_ & -> & ->).
    destruct (steers_center _ _ _ _ _ _ Hs) as [(Hg' & _ & ->) | (Hg' & ->)].
    - exists 0.1. rewrite Hg'. repeat split; auto; discriminate.
    - exists 0.5. rewrite Hg'. repeat split; auto; discriminate. }
  destruct (Hcx _ _ _ _ H) as (shift & Hshift & H30 & H02 & Hl0 & Hr0).
  split; [exact Hpos|]. split.
  - intros det' cx' l' r' H'.
    destruct (Hcx _ _ _ _ H') as (shift' & Hshift' & H30' & H02' & Hl' & Hr').
    assert (Hsame : shift' = shift).
    { destruct Hg as [Hg | Hg]; [rewrite (H02 Hg), (H02' Hg)
                                | rewrite (H30 Hg), (H30' Hg)]; reflexivity. }
    subst shift' l' r'. rewrite Hl0, Hr0.
    generalize (midpoint_x (bbox det)) (midpoint_x (bbox det')). intros m m'.
    repeat split; try ring; intros; Lqa.nra.
  - intros Hg30. rewrite (H30 Hg30) in Hl0, Hr0.
    assert (Hoff : forall d, fst (spec_center_offset d) = midpoint_x (bbox d) - 0.5)
      by reflexivity.
    rewrite Hoff, Hl0, Hr0. split; [reflexivity|]. split; [reflexivity|]. split.
    + intros Hz. rewrite Hz. split; ring.
    + intros det' cx' l' r' H' Hlt.
      destruct (Hcx _ _ _ _ H') as (shift' & _ & H30' & _ & -> & ->).
      rewrite (H30' Hg30). rewrite !Hoff in Hlt.
      revert Hlt.
      generalize (midpoint_x (bbox det)) (midpoint_x (bbox det')). intros m m' Hlt.
      split; Lqa.nra.
Qed.

Lemma steering_linear_in_position_witness :
  exists l r,
    In (Motor (SetMotors l r))
       (trace (Seven.execute (Seven.mkProbs 0.1 0.1 0.2 0.1 0.3 0.1 0.1) 0.4
                 [mkDetection 37 0.9 (mkBBox 0.45 0.45 0.55 0.55)]) tt) /\
    l == 0.4 /\ r == 0.4.
Proof.
  pose (d := mkDetection 37 0.9 (mkBBox 0.45 0.45 0.55 0.55)).
  pose (cx := fst (Seven.detection_center d)).
  assert (Hin : In (Motor (SetMotors (0.4 + 0.30 * cx) (0.4 - 0.30 * cx)))
                  (trace (Seven.execute (Seven.mkProbs 0.1 0.1 0.2 0.1 0.3 0.1 0.1)
                            0.4 [d]) tt)).
  { do 5 right. left. reflexivity. }
  assert (Hs : steers 0.4 0.30 d cx (0.4 + 0.30 * cx) (0.4 - 0.30 * cx)).
  { apply (steers_seven (Seven.mkProbs 0.1 0.1 0.2 0.1 0.3 0.1 0.1) 0.4 [d] d);
      [reflexivity | exact Hin]. }
  destruct (steering_linear_in_position _ _ _ _ _ _ Hs) as (_ & _ & Hseven).
  destruct (Hseven eq_refl) as (_ & _ & Hzero & _).
  exists (0.4 + 0.30 * cx), (0.4 - 0.30 * cx).
  split; [exact Hin | apply Hzero; reflexivity].
Defined.

(** C6 fails as worded, in binary64: of two targets for the seven-class
    notebook with the slider at its default, the second has the strictly
    larger computed [center_x], and both get the same left speed and the
    same right speed, so neither speed changes strictly. *)
Lemma rounding_absorbs_a_small_shift :
  PrimFloat.ltb
    (fst (F64.detection_center_by F64Words.half F64Words.left_box))
    (fst (F64.detection_center_by F64Words.half F64Words.right_box)) = true /\
  F64.set_motors_arguments F64Words.slider_default F64Words.seven_gain
    (F64.detection_center_by F64Words.half F64Words.left_box)
  = F64.set_motors_arguments F64Words.slider_default F64Words.seven_gain
      (F64.detection_center_by F64Words.half F64Words.right_box) /\
  PrimFloat.ltb
    (fst (F64.set_motors_arguments F64Words.slider_default F64Words.seven_gain
            (F64.detection_center_by F64Words.half F64Words.left_box)))
    (fst (F64.set_motors_arguments F64Words.slider_default F64Words.seven_gain
            (F64.detection_center_by F64Words.half F64Words.right_box)))
  = false /\
  PrimFloat.ltb
    (snd (F64.set_motors_arguments F64Words.slider_default F64Words.seven_gain
            (F64.detection_center_by F64Words.half F64Words.right_box)))
    (snd (F64.set_motors_arguments F64Words.slider_default F64Words.seven_gain
            (F64.detection_center_by F64Words.half F64Words.left_box)))
  = false.
Proof. repeat split; vm_compute; reflexivity. Qed.

(** In binary64 the neutral point has a width: a target whose computed
    [center_x] is positive, but tiny, gets the same speed on both wheels
    in the seven-class notebook. *)
Example neutral_point_in_binary64 :
  PrimFloat.ltb F64Words.zero
    (fst (F64.detection_center_by F64Words.half F64Words.just_right_box)) = true /\
  F64.set_motors_arguments F64Words.slider_high F64Words.seven_gain
    (F64.detection_center_by F64Words.half F64Words.just_right_box)
  = (F64Words.slider_high, F64Words.slider_high).
Proof. split; vm_compute; reflexivity. Qed.
